(** * R720 fan control: the decision and hysteresis engine of [control.py]

    A shallow embedding of [src/control.py].  The globals of the script and the
    locals of [main] that survive from one loop iteration to the next form a
    record [State]; one iteration of the [while running] loop of [main] is the
    function [main_tick], one iteration of the loop of [monitor_usage] is
    [monitor_step].  Everything the script obtains from outside (the clock,
    the text printed by the sensor command, the exit codes of the actuator
    command, the fan RPM text) is an explicit input of the tick.

    The two loops run in two threads.  A run of the model interleaves whole
    iterations of the two ([Sample] and [Tick]), so a tick sees one value of
    the usage globals; the order of the iterations is arbitrary.

    Numbers.  Python integers are [Z].  Python floats (the clock, CPU usage,
    spike sizes, the temperature rate) are rationals [Q]: comparisons are
    exact, binary rounding is not modelled.  Text is ASCII [string]. *)

From Stdlib Require Import ZArith QArith Lqa Lia String Ascii List Bool.
From stdpp Require Import base gmap strings.
Import ListNotations.

Local Open Scope string_scope.
Local Open Scope Z_scope.

(** ** Constants (lines 17-18) *)

Definition HOLD_TIME : Q := 30.
Definition DROP_DELAY : Q := 30.

(** ** Python results *)

Inductive Exn : Type :=
| ValueError
| OverflowError
| IndexError
| KeyError (key : string)
| UnboundLocalError (name : string).

Inductive PyResult (A : Type) : Type :=
| Returned (a : A)
| Raised (e : Exn).
Arguments Returned {A} a.
Arguments Raised {A} e.

Definition bind {A B : Type} (r : PyResult A) (k : A -> PyResult B) : PyResult B :=
  match r with
  | Returned a => k a
  | Raised e => Raised e
  end.

Notation "'let*' x ':=' r 'in' k" := (bind r (fun x => k))
  (at level 10, x name, r at level 100, k at level 200).

(** ** Comparisons on rationals, as booleans *)

Definition Qgtb (a b : Q) : bool := negb (Qle_bool a b).
Definition Qgeb (a b : Q) : bool := Qle_bool b a.

(** ** The string operations the sensor parser uses *)

Module PyStr.

(** [str.isspace] on ASCII: TAB, LF, VT, FF, CR, FS, GS, RS, US and space. *)
Definition is_space (c : ascii) : bool :=
  let n := Z.of_nat (nat_of_ascii c) in
  ((9 <=? n) && (n <=? 13)) || ((28 <=? n) && (n <=? 32)).

(** The ASCII line boundaries of [str.splitlines], CR apart. *)
Definition is_linebreak (c : ascii) : bool :=
  let n := Z.of_nat (nat_of_ascii c) in
  ((10 <=? n) && (n <=? 12)) || ((28 <=? n) && (n <=? 30)).

Definition is_cr (c : ascii) : bool := (Z.of_nat (nat_of_ascii c) =? 13).
Definition is_lf (c : ascii) : bool := (Z.of_nat (nat_of_ascii c) =? 10).

Definition snoc (s : string) (c : ascii) : string := s +:+ String c "".

(** [s.splitlines()]: a final line break opens no empty last line. *)
Fixpoint splitlines_from (cur : string) (started : bool) (s : string) : list string :=
  match s with
  | EmptyString => if started then [cur] else []
  | String c rest =>
      if is_cr c then
        match rest with
        | String c2 rest2 =>
            if is_lf c2 then cur :: splitlines_from "" false rest2
            else cur :: splitlines_from "" false rest
        | EmptyString => [cur]
        end
      else if is_linebreak c then cur :: splitlines_from "" false rest
      else splitlines_from (snoc cur c) true rest
  end.

Definition splitlines (s : string) : list string := splitlines_from "" false s.

(** [s.split(sep)] for a one-character separator: never the empty list. *)
Fixpoint split_from (sep : ascii) (cur : string) (s : string) : list string :=
  match s with
  | EmptyString => [cur]
  | String c rest =>
      if Ascii.eqb c sep then cur :: split_from sep "" rest
      else split_from sep (snoc cur c) rest
  end.

Definition split (sep : ascii) (s : string) : list string := split_from sep "" s.

Fixpoint lstrip (s : string) : string :=
  match s with
  | String c rest => if is_space c then lstrip rest else s
  | EmptyString => EmptyString
  end.

Fixpoint rstrip (s : string) : string :=
  match s with
  | String c rest =>
      match rstrip rest with
      | EmptyString => if is_space c then EmptyString else String c EmptyString
      | r => String c r
      end
  | EmptyString => EmptyString
  end.

Definition strip (s : string) : string := rstrip (lstrip s).

(** [sub in s] *)
Fixpoint contains (sub s : string) : bool :=
  String.prefix sub s ||
  match s with
  | String _ rest => contains sub rest
  | EmptyString => false
  end.

Definition lower (c : ascii) : ascii :=
  let n := nat_of_ascii c in
  if ((65 <=? Z.of_nat n) && (Z.of_nat n <=? 90)) then ascii_of_nat (n + 32) else c.

Fixpoint lowercase (s : string) : string :=
  match s with
  | String c rest => String (lower c) (lowercase rest)
  | EmptyString => EmptyString
  end.

End PyStr.

(** ** Number literals: [int(text)] and [int(float(text))]

    [float] accepts an optional sign, then [inf], [infinity] or [nan] in any
    letter case, or a decimal number with optional fraction and exponent whose
    digit groups may be separated by single underscores.  The value of the
    literal is taken exactly; [int] truncates it toward zero.  Rounding to a
    binary double (which matters only beyond 15 significant digits, or beyond
    the range of a double) is outside this model. *)

Module PyNum.

Definition digit_of (c : ascii) : option Z :=
  let n := Z.of_nat (nat_of_ascii c) in
  if ((48 <=? n) && (n <=? 57)) then Some (n - 48) else None.

Definition is_underscore (c : ascii) : bool := (Z.of_nat (nat_of_ascii c) =? 95).

(** After a first digit: further digits, each optionally preceded by one
    underscore.  Returns the digits read and the text left. *)
Fixpoint digits_tail (s : string) : list Z * string :=
  match s with
  | String c r =>
      match digit_of c with
      | Some d => let '(ds, r') := digits_tail r in (d :: ds, r')
      | None =>
          if is_underscore c then
            match r with
            | String c2 r2 =>
                match digit_of c2 with
                | Some d => let '(ds, r') := digits_tail r2 in (d :: ds, r')
                | None => ([], s)
                end
            | EmptyString => ([], s)
            end
          else ([], s)
      end
  | EmptyString => ([], EmptyString)
  end.

Definition digitpart (s : string) : option (list Z * string) :=
  match s with
  | String c r =>
      match digit_of c with
      | Some d => let '(ds, r') := digits_tail r in Some (d :: ds, r')
      | None => None
      end
  | EmptyString => None
  end.

Definition value_of (ds : list Z) : Z := fold_left (fun acc d => 10 * acc + d) ds 0.

(** An optional sign: the factor and the text after it. *)
Definition sign (s : string) : Z * string :=
  match s with
  | String "+" r => (1, r)
  | String "-" r => (-1, r)
  | _ => (1, s)
  end.

(** [int(s)] for a string already stripped (base 10). *)
Definition py_int (s : string) : PyResult Z :=
  let '(sg, r) := sign s in
  match digitpart r with
  | Some (ds, EmptyString) => Returned (sg * value_of ds)
  | _ => Raised ValueError
  end.

(** The mantissa [digits [. [digits]]] or [. digits]: the digits of the
    integer part and of the fraction, and the text left. *)
Definition mantissa (s : string) : option (list Z * list Z * string) :=
  match digitpart s with
  | Some (ip, String "." r) =>
      match digitpart r with
      | Some (fp, r') => Some (ip, fp, r')
      | None => Some (ip, [], r)
      end
  | Some (ip, r) => Some (ip, [], r)
  | None =>
      match s with
      | String "." r =>
          match digitpart r with
          | Some (fp, r') => Some ([], fp, r')
          | None => None
          end
      | _ => None
      end
  end.

(** The exponent part, if any, must reach the end of the text. *)
Definition exponent (s : string) : option Z :=
  match s with
  | EmptyString => Some 0
  | String c r =>
      if (Ascii.eqb c "e" || Ascii.eqb c "E")%bool then
        let '(sg, r1) := sign r in
        match digitpart r1 with
        | Some (ds, EmptyString) => Some (sg * value_of ds)
        | _ => None
        end
      else None
  end.

(** [int(float(s))] for a string already stripped. *)
Definition int_of_float_text (s : string) : PyResult Z :=
  let '(sg, r) := sign s in
  let w := PyStr.lowercase r in
  if (String.eqb w "inf" || String.eqb w "infinity")%bool then Raised OverflowError
  else if String.eqb w "nan" then Raised ValueError
  else
    match mantissa r with
    | Some (ip, fp, r') =>
        match exponent r' with
        | Some e =>
            let m := value_of (ip ++ fp) in
            let scale := e - Z.of_nat (length fp) in
            Returned (sg * (if 0 <=? scale then m * 10 ^ scale
                            else Z.quot m (10 ^ (- scale))))
        | None => Raised ValueError
        end
    | None => Raised ValueError
    end.

End PyNum.


(** ** The temperature read: [get_sensor_data] (lines 67-84) *)

(** What [subprocess.check_output] does: it returns the text the command
    printed, or raises [CalledProcessError] on a non-zero exit status. *)
Inductive SensorRun : Type :=
| SensorOutput (output : string)
| SensorCalledProcessError.

(** [parts[1]] *)
Definition second_field (parts : list string) : PyResult string :=
  match nth_error parts 1 with
  | Some p => Returned p
  | None => Raised IndexError
  end.

(** The body of the [for line in output.splitlines()] loop (lines 72-80). *)
Definition parse_line (temps : gmap string Z) (line : string) : PyResult (gmap string Z) :=
  let parts := map PyStr.strip (PyStr.split "|" line) in
  let p0 := nth 0 parts "" in
  let reading := (let* p1 := second_field parts in PyNum.int_of_float_text p1) in
  if PyStr.contains "Inlet Temp" p0 then
    let* v := reading in Returned (<["inlet" := v]> temps)
  else if PyStr.contains "Exhaust Temp" p0 then
    let* v := reading in Returned (<["exhaust" := v]> temps)
  else if (String.eqb p0 "Temp" && bool_decide (temps !! "cpu1" = None))%bool then
    let* v := reading in Returned (<["cpu1" := v]> temps)
  else if String.eqb p0 "Temp" then
    let* v := reading in Returned (<["cpu2" := v]> temps)
  else Returned temps.

Fixpoint parse_lines (temps : gmap string Z) (lines : list string) : PyResult (gmap string Z) :=
  match lines with
  | [] => Returned temps
  | line :: rest => let* temps' := parse_line temps line in parse_lines temps' rest
  end.

(** Only [CalledProcessError] is caught (line 82): an exception of the parsing
    loop leaves the function. *)
Definition get_sensor_data (run : SensorRun) : PyResult (option (gmap string Z)) :=
  match run with
  | SensorOutput output =>
      let* temps := parse_lines ∅ (PyStr.splitlines output) in Returned (Some temps)
  | SensorCalledProcessError => Returned None
  end.

(** ** The fan RPM read: [get_fan_rpm] (lines 86-95) *)

Inductive RpmRun : Type :=
| RpmOutput (output : string)
| RpmCalledProcessError.

Definition get_fan_rpm (run : RpmRun) : PyResult Z :=
  match run with
  | RpmOutput output => PyNum.py_int (PyStr.strip output)
  | RpmCalledProcessError => Returned 0
  end.

(** ** The actuator: [run_ipmitool] and [set_fan_speed] (lines 53-65, 97-105) *)

(** One run of the command: its exit status, or a [SubprocessError]. *)
Inductive Attempt : Type :=
| Exit (returncode : Z)
| SubprocessError.

Definition attempt_ok (a : Attempt) : bool :=
  match a with
  | Exit rc => rc =? 0
  | SubprocessError => false
  end.

(** [for attempt in range(retries)], from [attempt] with [left] rounds to go. *)
Fixpoint run_ipmitool_from (runs : nat -> Attempt) (attempt left : nat) : bool :=
  match left with
  | O => false
  | S left' =>
      if attempt_ok (runs attempt) then true
      else run_ipmitool_from runs (S attempt) left'
  end.

Definition run_ipmitool (runs : nat -> Attempt) : bool := run_ipmitool_from runs 0 3.

Definition hex_speed (speed : Z) : string :=
  if speed =? 25 then "0x19"
  else if speed =? 40 then "0x28"
  else if speed =? 60 then "0x3c"
  else if speed =? 80 then "0x50"
  else if speed =? 100 then "0x64"
  else "0x19".

Definition set_fan_speed (speed : Z) (runs : nat -> Attempt) : bool := run_ipmitool runs.

(** ** State (lines 25-39, and the locals of [main] that outlive an iteration) *)

(** The reason strings are f-strings around one number each; the model keeps
    the kind of text and the number printed in it. *)
Inductive Reason : Type :=
| NoReason
| ExtremeSpike (size : Q)
| LargeSpike (size : Q)
| ModerateSpike (size : Q)
| SmallSpike (size : Q)
| HighTemp (temp : Z)
| ModerateTemp (temp : Z)
| SustainedTemp (temp : Z)
| IdleTemp (temp : Z)
| FastRise (rate : Q)
| LowTemp (temp : Z).

(** The dict [last_trigger]. *)
Record Trigger : Type := mkTrigger {
  trigger_usage : Q;
  trigger_temp : Z;
  trigger_time : Q;
  trigger_reason : Reason
}.

Inductive Trend : Type := Rising | Stable | Falling.

Record State : Type := mkState {
  usage : Q;
  usage_avg : Q;
  spike_detected : bool;
  spike_size : Q;
  max_temp : Z;
  last_max_temp : Z;
  current_speed : Z;
  cooldown_end : Q;
  drop_delay_start : Q;
  last_trigger : Trigger;
  usage_window : list Q;
  temp_window : list Z;
  last_usage : Q;
  (* locals of [main], unbound until first assigned *)
  temp_trend : option Trend;
  temp_rate : option Q
}.

Definition initial_state : State := {|
  usage := 0; usage_avg := 0; spike_detected := false; spike_size := 0;
  max_temp := 25; last_max_temp := 25; current_speed := 25;
  cooldown_end := 0; drop_delay_start := 0;
  last_trigger := mkTrigger 0 0 0 NoReason;
  usage_window := []; temp_window := []; last_usage := 0;
  temp_trend := None; temp_rate := None
|}.

(** [deque(maxlen=25).append]: the oldest entry leaves when the window is full. *)
Definition deque_append {A : Type} (w : list A) (x : A) : list A :=
  if (25 <=? length w)%nat then tl w ++ [x] else w ++ [x].

(** ** The usage sampler: one iteration of [monitor_usage] (lines 44-49) *)

Definition Qsum (l : list Q) : Q := fold_left Qplus l 0%Q.

Definition monitor_step (s : State) (cpu_percent : Q) : State :=
  let last := usage s in
  let window := deque_append (usage_window s) cpu_percent in
  let avg := match window with
             | [] => cpu_percent
             | _ => (Qsum window / inject_Z (Z.of_nat (length window)))%Q
             end in
  let size := (cpu_percent - last)%Q in
  {| usage := cpu_percent; usage_avg := avg;
     spike_detected := Qgtb size 5; spike_size := size;
     max_temp := max_temp s; last_max_temp := last_max_temp s;
     current_speed := current_speed s; cooldown_end := cooldown_end s;
     drop_delay_start := drop_delay_start s; last_trigger := last_trigger s;
     usage_window := window; temp_window := temp_window s; last_usage := last;
     temp_trend := temp_trend s; temp_rate := temp_rate s |}.

(** ** The temperature sampler: lines 154-160 of [main] *)

(** [temps[key]] *)
Definition getitem (temps : gmap string Z) (key : string) : PyResult Z :=
  match temps !! key with
  | Some v => Returned v
  | None => Raised (KeyError key)
  end.

(** [list(w)[-5:]] *)
Definition last5 (w : list Z) : list Z := skipn (length w - 5) w.

(** [min(l)] *)
Definition py_min (l : list Z) : PyResult Z :=
  match l with
  | [] => Raised ValueError
  | x :: xs => Returned (fold_left Z.min xs x)
  end.

(** Line 158; [window] is the window after the append of line 156. *)
Definition trend_of (window : list Z) (max_temp last_max_temp : Z) : Trend :=
  if ((1 <? length window)%nat && (max_temp >? last_max_temp))%bool then Rising
  else if max_temp =? last_max_temp then Stable
  else Falling.

(** Line 159 *)
Definition rate_of (window : list Z) (max_temp : Z) : PyResult Q :=
  if (5 <=? length window)%nat then
    let* m := py_min (last5 window) in Returned (inject_Z (max_temp - m) / 5)%Q
  else Returned 0%Q.

Definition set_temps (s : State) (mt : Z) (window : list Z) (trend : Trend) (rate : Q) : State :=
  {| usage := usage s; usage_avg := usage_avg s;
     spike_detected := spike_detected s; spike_size := spike_size s;
     max_temp := mt; last_max_temp := mt;
     current_speed := current_speed s; cooldown_end := cooldown_end s;
     drop_delay_start := drop_delay_start s; last_trigger := last_trigger s;
     usage_window := usage_window s; temp_window := window; last_usage := last_usage s;
     temp_trend := Some trend; temp_rate := Some rate |}.

(** [if temps:] is false for [None] and for the empty dict. *)
Definition truthy (temps : option (gmap string Z)) : option (gmap string Z) :=
  match temps with
  | Some d => if bool_decide (d = ∅) then None else Some d
  | None => None
  end.

Definition update_temps (s : State) (temps : option (gmap string Z)) : PyResult State :=
  match truthy temps with
  | Some d =>
      let* inlet := getitem d "inlet" in
      let* exhaust := getitem d "exhaust" in
      let* cpu1 := getitem d "cpu1" in
      let* cpu2 := getitem d "cpu2" in
      let mt := Z.max (Z.max (Z.max inlet exhaust) cpu1) cpu2 in
      let window := deque_append (temp_window s) mt in
      let trend := trend_of window mt (last_max_temp s) in
      let* rate := rate_of window mt in
      Returned (set_temps s mt window trend rate)
  | None => Returned s
  end.

(** ** The decision engine: lines 162-206 of [main] *)

(** [temp_rate] is a local of [main]: reading it while unbound raises.  The
    [and] of line 199 reads it only when the window holds five entries. *)
Definition propose (spike_detected : bool) (spike_size : Q) (max_temp : Z)
    (temp_rate : option Q) (window_len : nat) : PyResult (Z * Reason) :=
  if spike_detected then
    if Qgtb spike_size 25 then Returned (100, ExtremeSpike spike_size)
    else if Qgtb spike_size 15 then Returned (80, LargeSpike spike_size)
    else if Qgtb spike_size 10 then Returned (60, ModerateSpike spike_size)
    else Returned (40, SmallSpike spike_size)
  else
    if max_temp >=? 50 then Returned (100, HighTemp max_temp)
    else if max_temp >=? 45 then Returned (80, ModerateTemp max_temp)
    else if max_temp >=? 40 then Returned (60, SustainedTemp max_temp)
    else if max_temp >=? 30 then Returned (40, IdleTemp max_temp)
    else if (5 <=? window_len)%nat then
      match temp_rate with
      | Some rate =>
          if Qgtb rate 0.5 then Returned (80, FastRise rate)
          else Returned (25, LowTemp max_temp)
      | None => Raised (UnboundLocalError "temp_rate")
      end
    else Returned (25, LowTemp max_temp).

Definition propose_in (s : State) : PyResult (Z * Reason) :=
  propose (spike_detected s) (spike_size s) (max_temp s) (temp_rate s)
          (length (temp_window s)).

(** ** The speed controller: lines 208-244 of [main] *)

Inductive Direction : Type := Increased | Decreased.

Inductive Event : Type :=
| SetFanSpeed (speed : Z) (level : string) (ok : bool)
| Notify (direction : Direction) (speed rpm : Z) (reason : Reason)
         (usage usage_avg : Q) (max_temp : Z)
| WarnFailed (direction : Direction) (speed : Z).

Inductive Outcome : Type :=
| Ran (s : State) (events : list Event)
| Crashed (e : Exn) (events : list Event).

(** What a tick takes from outside. *)
Record TickInput : Type := mkTickInput {
  sensor : SensorRun;          (* the sensor command, line 69 *)
  now : Q;                     (* [time.time()], line 164 *)
  ipmi : nat -> Attempt;       (* the runs of the set-speed command *)
  rpm_log : RpmRun;            (* the RPM read of lines 213 / 229 *)
  rpm_notify : RpmRun          (* the RPM read of lines 218 / 234 *)
}.

Definition set_drop_delay_start (s : State) (t : Q) : State :=
  {| usage := usage s; usage_avg := usage_avg s;
     spike_detected := spike_detected s; spike_size := spike_size s;
     max_temp := max_temp s; last_max_temp := last_max_temp s;
     current_speed := current_speed s; cooldown_end := cooldown_end s;
     drop_delay_start := t; last_trigger := last_trigger s;
     usage_window := usage_window s; temp_window := temp_window s;
     last_usage := last_usage s;
     temp_trend := temp_trend s; temp_rate := temp_rate s |}.

(** [spike_detected = False] (lines 221 and 244) *)
Definition clear_spike (s : State) : State :=
  {| usage := usage s; usage_avg := usage_avg s;
     spike_detected := false; spike_size := spike_size s;
     max_temp := max_temp s; last_max_temp := last_max_temp s;
     current_speed := current_speed s; cooldown_end := cooldown_end s;
     drop_delay_start := drop_delay_start s; last_trigger := last_trigger s;
     usage_window := usage_window s; temp_window := temp_window s;
     last_usage := last_usage s;
     temp_trend := temp_trend s; temp_rate := temp_rate s |}.

(** Lines 214-217 and 230-233: the four assignments after a successful call. *)
Definition record_change (s : State) (new_speed : Z) (now : Q) (reason : Reason) : State :=
  {| usage := usage s; usage_avg := usage_avg s;
     spike_detected := spike_detected s; spike_size := spike_size s;
     max_temp := max_temp s; last_max_temp := last_max_temp s;
     current_speed := new_speed; cooldown_end := (now + HOLD_TIME)%Q;
     drop_delay_start := 0%Q;
     last_trigger := mkTrigger (usage_avg s) (max_temp s) now reason;
     usage_window := usage_window s; temp_window := temp_window s;
     last_usage := last_usage s;
     temp_trend := temp_trend s; temp_rate := temp_rate s |}.

(** Lines 211-220 and 227-236: call the actuator; on success read the RPM for
    the log line, assign, read the RPM again and notify. *)
Definition change_speed (s : State) (dir : Direction) (new_speed : Z)
    (reason : Reason) (i : TickInput) : Outcome :=
  let success := set_fan_speed new_speed (ipmi i) in
  let call := SetFanSpeed new_speed (hex_speed new_speed) success in
  if success then
    match get_fan_rpm (rpm_log i) with
    | Raised e => Crashed e [call]
    | Returned _ =>
        let s' := record_change s new_speed (now i) reason in
        match get_fan_rpm (rpm_notify i) with
        | Raised e => Crashed e [call]
        | Returned rpm =>
            Ran (clear_spike s')
                [call; Notify dir new_speed rpm reason (usage s') (usage_avg s') (max_temp s')]
        end
    end
  else Ran (clear_spike s) [call; WarnFailed dir new_speed].

Definition apply_speed (s : State) (new_speed : Z) (reason : Reason) (i : TickInput) : Outcome :=
  if negb (new_speed =? current_speed s) then
    if ((new_speed >? current_speed s)
        || (spike_detected s && (new_speed >=? current_speed s)))%bool then
      change_speed s Increased new_speed reason i
    else
      if Qeq_bool (drop_delay_start s) 0 then
        Ran (clear_spike (set_drop_delay_start s (now i))) []
      else if (Qgeb (now i - drop_delay_start s) DROP_DELAY
               && Qgeb (now i) (cooldown_end s))%bool then
        change_speed s Decreased new_speed reason i
      else Ran (clear_spike s) []
  else Ran (clear_spike (set_drop_delay_start s 0%Q)) [].

(** ** One iteration of the main loop (lines 153-245) *)

(** Lines 153-206: read the sensors, update the temperature globals, propose.
    Returns the state in which the controller then runs and the proposal. *)
Definition sense_and_propose (s : State) (i : TickInput) : PyResult (State * (Z * Reason)) :=
  let* temps := get_sensor_data (sensor i) in
  let* s1 := update_temps s temps in
  let* proposal := propose_in s1 in
  Returned (s1, proposal).

Definition main_tick (s : State) (i : TickInput) : Outcome :=
  match sense_and_propose s i with
  | Raised e => Crashed e []
  | Returned (s1, (new_speed, reason)) => apply_speed s1 new_speed reason i
  end.

Definition events_of (o : Outcome) : list Event :=
  match o with
  | Ran _ events => events
  | Crashed _ events => events
  end.

(** The speed of the successful set-speed call among the events, if any. *)
Fixpoint applied (events : list Event) : option Z :=
  match events with
  | SetFanSpeed speed _ true :: _ => Some speed
  | _ :: rest => applied rest
  | [] => None
  end.

(** The set-speed calls among the events. *)
Fixpoint actuator_calls (events : list Event) : list (Z * bool) :=
  match events with
  | SetFanSpeed speed _ ok :: rest => (speed, ok) :: actuator_calls rest
  | _ :: rest => actuator_calls rest
  | [] => []
  end.

Definition is_notify (e : Event) : bool :=
  match e with
  | Notify _ _ _ _ _ _ _ => true
  | _ => false
  end.

(** The fields the speed controller owns. *)
Definition controller (s : State) : Z * Q * Q * Trigger :=
  (current_speed s, cooldown_end s, drop_delay_start s, last_trigger s).

(** ** Runs: the two loops interleaved, one whole iteration at a time *)

Inductive Action : Type :=
| Sample (cpu_percent : Q)     (* one iteration of [monitor_usage] *)
| Tick (i : TickInput).        (* one iteration of the loop of [main] *)

(** What a run remembers of a tick: its clock, its proposal, the speed it
    compared the proposal to, and whether it changed the speed. *)
Record TickRec : Type := mkTickRec {
  rec_now : Q;
  rec_target : Z;
  rec_current : Z;
  rec_applied : bool
}.

Definition is_some {A : Type} (o : option A) : bool :=
  match o with Some _ => true | None => false end.

(** A run stops (with [None]) when a tick raises; the journal has the most
    recent tick first. *)
Fixpoint run_from (s : State) (journal : list TickRec) (acts : list Action)
  : option (State * list TickRec) :=
  match acts with
  | [] => Some (s, journal)
  | Sample cpu :: rest => run_from (monitor_step s cpu) journal rest
  | Tick i :: rest =>
      match sense_and_propose s i, main_tick s i with
      | Returned (s1, (target, _)), Ran s' events =>
          run_from s' (mkTickRec (now i) target (current_speed s1)
                                 (is_some (applied events)) :: journal) rest
      | _, _ => None
      end
  end.

Definition run (acts : list Action) : option (State * list TickRec) :=
  run_from initial_state [] acts.

(** The proposal stayed below the speed at every tick back to the one at
    clock [start]. *)
Fixpoint sustained_lower (start : Q) (journal : list TickRec) : bool :=
  match journal with
  | [] => false
  | r :: older =>
      (rec_target r <? rec_current r)
      && (Qeq_bool (rec_now r) start || sustained_lower start older)
  end.

(** Every tick back to the one at clock [start], which proposed a lower speed,
    proposed a speed other than the current one and changed nothing. *)
Fixpoint pending_since (start : Q) (journal : list TickRec) : bool :=
  match journal with
  | [] => false
  | r :: older =>
      (negb (rec_target r =? rec_current r) && negb (rec_applied r))
      && (((rec_target r <? rec_current r) && Qeq_bool (rec_now r) start)
          || pending_since start older)
  end.

(** ** The decision engine in the words of the specification

    First match wins: the spike bands when a spike is detected, else the
    temperature bands, else the fast-rise override, else the idle floor. *)
Definition propose_spec (spike_detected : bool) (spike_size : Q) (max_temp : Z)
    (temp_rate : Q) (window_len : nat) : Z :=
  if spike_detected then
    if Qlt_le_dec 25 spike_size then 100
    else if Qlt_le_dec 15 spike_size then 80
    else if Qlt_le_dec 10 spike_size then 60
    else 40
  else if Z_le_dec 50 max_temp then 100
  else if Z_le_dec 45 max_temp then 80
  else if Z_le_dec 40 max_temp then 60
  else if Z_le_dec 30 max_temp then 40
  else if le_dec 5 window_len then
    if Qlt_le_dec 0.5 temp_rate then 80 else 25
  else 25.

(** ** Invariants of runs *)

(** While the timer is set, the journal shows the tick that started it (a
    lower proposal) and, since then, only ticks that proposed a speed other
    than the current one and changed nothing. *)
Definition timer_explained (s : State) (j : list TickRec) : Prop :=
  Qeq_bool (drop_delay_start s) 0 = false ->
  pending_since (drop_delay_start s) j = true.

(** As long as no tick changes the speed, [cooldown_end] stays. *)
Definition cooldown_kept (c : Q) (s : State) (j : list TickRec) : Prop :=
  existsb rec_applied j = false -> cooldown_end s = c.

(** The temperature globals and the rate, which only a read assigns. *)
Definition temperature (s : State) : Z * list Z * option Q :=
  (max_temp s, temp_window s, temp_rate s).

(** Once the window holds a sample, [temp_rate] is bound to the rate of the
    window and the maximum of the last successful read. *)
Definition rate_is_of_last_read (s : State) (j : list TickRec) : Prop :=
  temp_window s <> [] ->
  exists rate,
    rate_of (temp_window s) (max_temp s) = Returned rate
    /\ temp_rate s = Some rate.

(** ** Sample inputs *)

Definition LF : string := String (ascii_of_nat 10) "".

(** A sensor table with the four monitored rows and one other row. *)
Definition sensor_table (inlet exhaust cpu1 cpu2 : string) : SensorRun :=
  SensorOutput
    ("Inlet Temp       | " +:+ inlet +:+ "     | degrees C  | ok" +:+ LF +:+
     "Exhaust Temp     | " +:+ exhaust +:+ "     | degrees C  | ok" +:+ LF +:+
     "Temp             | " +:+ cpu1 +:+ "     | degrees C  | ok" +:+ LF +:+
     "Temp             | " +:+ cpu2 +:+ "     | degrees C  | ok" +:+ LF +:+
     "Fan1 RPM         | 7200.000   | RPM        | ok" +:+ LF).

Definition ok_runs : nat -> Attempt := fun _ => Exit 0.
Definition failing_runs : nat -> Attempt := fun _ => Exit 1.

Definition tick_at (t : Q) (sensor : SensorRun) (runs : nat -> Attempt) : TickInput :=
  mkTickInput sensor t runs (RpmOutput ("7200" +:+ LF)) (RpmOutput ("7200" +:+ LF)).

(** All four readings at [t] degrees. *)
Definition uniform (t : string) : SensorRun := sensor_table t t t t.

(** The state a run ends in (the initial state if a tick raised). *)
Definition state_after (acts : list Action) : State :=
  match run acts with
  | Some (s, _) => s
  | None => initial_state
  end.

(** 35 degrees raise the speed to 40; then the usage jumps from 0 to 7. *)
Definition warm_then_spike : list Action :=
  [Tick (tick_at 100 (uniform "35.000") ok_runs); Sample 7].

(** 45 degrees raise the speed to 80 at clock 100; at clock 140 the
    temperature is back at 22 and the drop-delay timer starts. *)
Definition pending_drop : list Action :=
  [Tick (tick_at 100 (uniform "45.000") ok_runs);
   Tick (tick_at 140 (uniform "22.000") ok_runs)].

(** Then the usage jumps by 40 and, at clock 169, the actuator fails. *)
Definition interrupted_drop : list Action :=
  pending_drop ++ [Sample 40; Tick (tick_at 169 (uniform "22.000") failing_runs)].

(** Five successful reads, the last one 5 degrees above the others, all
    below 30 degrees. *)
Definition rising_reads : list Action :=
  [Tick (tick_at 100 (uniform "20.000") ok_runs);
   Tick (tick_at 101 (uniform "20.000") ok_runs);
   Tick (tick_at 102 (uniform "20.000") ok_runs);
   Tick (tick_at 103 (uniform "20.000") ok_runs);
   Tick (tick_at 104 (uniform "25.000") ok_runs)].

(** The sensor command exits with an error. *)
Definition failed_read (t : Q) : TickInput := tick_at t SensorCalledProcessError ok_runs.

(** The first CPU sensor has no reading. *)
Definition table_without_reading : SensorRun :=
  sensor_table "22.000" "30.000" "na" "41.000".

(** Only the inlet row is there. *)
Definition table_without_rows : SensorRun :=
  SensorOutput ("Inlet Temp       | 22.000     | degrees C  | ok" +:+ LF).

(** The dict of a read with all four readings at [t]. *)
Definition all_at (t : Z) : gmap string Z :=
  <["inlet" := t]> (<["exhaust" := t]> (<["cpu1" := t]> (<["cpu2" := t]> ∅))).

(** ** Speed levels *)

(** The keys of the table of [set_fan_speed] (lines 98-104). *)
Definition levels : list Z := [25; 40; 60; 80; 100].


(** The globals of the usage sampler. *)
Definition sampler (s : State) : Q * Q * Q * list Q * Q :=
  (usage s, usage_avg s, spike_size s, usage_window s, last_usage s).


(** Everything the temperature sampler assigns. *)
Definition thermal (s : State) : Z * Z * list Z * option Trend * option Q :=
  (max_temp s, last_max_temp s, temp_window s, temp_trend s, temp_rate s).





(** The four keys line 155 reads. *)
Definition monitored_keys : list string := ["inlet"; "exhaust"; "cpu1"; "cpu2"].


(** ** Rows of the sensor table *)

(** [parts[0]] of a line, as line 72 builds it. *)
Definition label (line : string) : string :=
  nth 0 (map PyStr.strip (PyStr.split "|" line)) "".

(** The label tests of lines 73-79. *)
Definition is_monitored (p0 : string) : bool :=
  PyStr.contains "Inlet Temp" p0 || PyStr.contains "Exhaust Temp" p0
  || String.eqb p0 "Temp".

(** What holds of the dict all along the parsing loop. *)
Definition well_keyed (temps : gmap string Z) : Prop :=
  (forall (k : string) (v : Z), temps !! k = Some v -> In k monitored_keys)
  /\ (temps !! "cpu1" = None -> temps !! "cpu2" = None).


(** ** Decimal text *)

(** The character of a decimal digit, and the text of a list of digits. *)
Definition digit_char (d : Z) : ascii := ascii_of_nat (48 + Z.to_nat d).

Fixpoint digits_text (ds : list Z) : string :=
  match ds with
  | [] => ""
  | d :: rest => String (digit_char d) (digits_text rest)
  end.

Definition is_digit (d : Z) : Prop := 0 <= d <= 9.

(** Text that does not go on with a digit or an underscore. *)
Definition ends_number (rest : string) : Prop :=
  match rest with
  | EmptyString => True
  | String c _ => PyNum.digit_of c = None /\ PyNum.is_underscore c = false
  end.

(** ** The level byte, read back *)

Definition hex_digit (c : ascii) : option Z :=
  let n := Z.of_nat (nat_of_ascii c) in
  if ((48 <=? n) && (n <=? 57))%bool then Some (n - 48)
  else if ((97 <=? n) && (n <=? 102))%bool then Some (n - 87)
  else if ((65 <=? n) && (n <=? 70))%bool then Some (n - 55)
  else None.

Fixpoint hex_digits (s : string) (acc : Z) : option Z :=
  match s with
  | EmptyString => Some acc
  | String c rest =>
      match hex_digit c with
      | Some d => hex_digits rest (16 * acc + d)
      | None => None
      end
  end.

(** The value of a literal [0x..] with at least one digit. *)
Definition hex_value (s : string) : option Z :=
  match s with
  | String "0" (String "x" (String c rest)) => hex_digits (String c rest) 0
  | _ => None
  end.

(** ** The actuator command, with its log and its sleeps (lines 53-65) *)

Inductive IpmiEvent : Type :=
| IpmiRun (attempt : nat) (result : Attempt)
| IpmiWarning (attempt : nat)
| IpmiSleep (delay : Q)
| IpmiError.

(** The loop of [run_ipmitool] from [attempt], with [left] rounds to go: what
    it does, in order, and what it returns. *)
Fixpoint run_ipmitool_trace (runs : nat -> Attempt) (delay : Q) (attempt left : nat)
  : list IpmiEvent * bool :=
  match left with
  | O => ([IpmiError], false)
  | S left' =>
      if attempt_ok (runs attempt) then ([IpmiRun attempt (runs attempt)], true)
      else
        let '(events, result) := run_ipmitool_trace runs delay (S attempt) left' in
        (IpmiRun attempt (runs attempt) :: IpmiWarning (S attempt)
           :: IpmiSleep delay :: events, result)
  end.

Definition slept (events : list IpmiEvent) : Q :=
  fold_right (fun e t => match e with IpmiSleep d => (d + t)%Q | _ => t end) 0%Q events.

Fixpoint runs_made (events : list IpmiEvent) : nat :=
  match events with
  | IpmiRun _ _ :: rest => S (runs_made rest)
  | _ :: rest => runs_made rest
  | [] => 0%nat
  end.

(** ** Startup and shutdown (lines 122-128 and 135-148) *)

(** What the script touches outside the loop: the PID file (its content, if
    it exists) and the commands given to [run_ipmitool], in order, each with
    its result. *)
Record Host : Type := mkHost {
  pid_file : option string;
  sent : list (string * bool)
}.

Inductive Ending : Type :=
| SystemExit (code : Z) (h : Host)
| FileNotFoundError (h : Host)
| LoopEntered (h : Host).

Definition ENABLE_MANUAL : string := "raw 0x30 0x30 0x01 0x00".
Definition RESTORE_AUTO : string := "raw 0x30 0x30 0x01 0x01".
Definition set_speed_command (speed : Z) : string :=
  "raw 0x30 0x30 0x02 0xff " +:+ hex_speed speed.

Definition send (h : Host) (cmd : string) (ok : bool) : Host :=
  mkHost (pid_file h) (sent h ++ [(cmd, ok)]).

(** [cleanup_handler]: restore automatic control, whatever the result, then
    remove the PID file ([os.remove] raises if there is none) and exit 0. *)
Definition cleanup_handler (h : Host) (restore_runs : nat -> Attempt) : Ending :=
  let h1 := send h RESTORE_AUTO (run_ipmitool restore_runs) in
  match pid_file h1 with
  | Some _ => SystemExit 0 (mkHost None (sent h1))
  | None => FileNotFoundError h1
  end.

(** Lines 135-148 of [main], up to the start of the loop. *)
Definition startup (h : Host) (pid : string)
    (enable_runs set_runs restore_runs : nat -> Attempt) : Ending :=
  match pid_file h with
  | Some _ => SystemExit 1 h
  | None =>
      let h1 := mkHost (Some pid) (sent h) in
      let enabled := run_ipmitool enable_runs in
      let h2 := send h1 ENABLE_MANUAL enabled in
      if negb enabled then cleanup_handler h2 restore_runs
      else
        let speed := current_speed initial_state in
        let set := set_fan_speed speed set_runs in
        let h3 := send h2 (set_speed_command speed) set in
        if negb set then cleanup_handler h3 restore_runs
        else LoopEntered h3
  end.

(** * Properties *)

(** ** Boolean comparisons *)

Lemma Qgtb_true (a b : Q) : Qgtb a b = true <-> (b < a)%Q.
Proof.
  unfold Qgtb. rewrite negb_true_iff, <- not_true_iff_false, Qle_bool_iff.
  split; [apply Qnot_le_lt | apply Qlt_not_le].
Qed.

Lemma Qgtb_false (a b : Q) : Qgtb a b = false <-> (a <= b)%Q.
Proof.
  unfold Qgtb. rewrite negb_false_iff. apply Qle_bool_iff.
Qed.

Lemma Qgeb_true (a b : Q) : Qgeb a b = true <-> (b <= a)%Q.
Proof. unfold Qgeb. apply Qle_bool_iff. Qed.

Lemma Qgeb_false (a b : Q) : Qgeb a b = false <-> (a < b)%Q.
Proof.
  unfold Qgeb. rewrite <- not_true_iff_false, Qle_bool_iff.
  split; [apply Qnot_le_lt | apply Qlt_not_le].
Qed.

Lemma Qgtb_dec_lt (a b : Q) :
  Qgtb a b = if Qlt_le_dec b a then true else false.
Proof.
  destruct (Qlt_le_dec b a) as [H | H].
  - now apply Qgtb_true.
  - now apply Qgtb_false.
Qed.

Lemma Zgeb_dec_le (a b : Z) :
  (a >=? b) = if Z_le_dec b a then true else false.
Proof.
  destruct (Z_le_dec b a) as [H | H]; rewrite Z.geb_leb.
  - now apply Z.leb_le.
  - now apply Z.leb_gt; lia.
Qed.

Lemma leb_dec_le (a b : nat) :
  (a <=? b)%nat = if le_dec a b then true else false.
Proof.
  destruct (le_dec a b) as [H | H].
  - now apply Nat.leb_le.
  - apply Nat.leb_gt. lia.
Qed.

(** ** The decision engine *)

(** C1. The speed proposed by the decision engine is the first match of the
    cascade of the specification (spike bands, temperature bands, fast-rise
    override, idle floor); with a spike detected the proposal does not depend
    on the temperature, the rate or the window, and a spike of 30 at 20
    degrees proposes 100. *)
Theorem propose_first_match (sd : bool) (size : Q) (mt : Z) (rate : Q) (wl : nat) :
  (exists reason,
      propose sd size mt (Some rate) wl
      = Returned (propose_spec sd size mt rate wl, reason))
  /\ (sd = true ->
      forall (mt' : Z) (rate' : option Q) (wl' : nat),
        propose sd size mt' rate' wl' = propose sd size mt (Some rate) wl)
  /\ propose true 30 20 (Some rate) wl = Returned (100, ExtremeSpike 30).
Proof.
  split; [| split].
  - unfold propose, propose_spec.
    rewrite !Qgtb_dec_lt, !Zgeb_dec_le, leb_dec_le.
    destruct sd.
    + repeat match goal with
             | |- context [Qlt_le_dec ?a ?b] => destruct (Qlt_le_dec a b)
             end; eauto.
    + repeat match goal with
             | |- context [Z_le_dec ?a ?b] => destruct (Z_le_dec a b)
             end; eauto.
      destruct (le_dec 5 wl); eauto.
      destruct (Qlt_le_dec 0.5 rate); eauto.
  - intros -> mt' rate' wl'. reflexivity.
  - reflexivity.
Qed.

Lemma propose_first_match_witness :
  propose true 30 55 None 0%nat = propose true 30 20 (Some 0%Q) 7%nat.
Proof.
  exact (proj1 (proj2 (propose_first_match true 30 20 0 7%nat)) eq_refl 55 None 0%nat).
Defined.

(** ** The temperature sampler leaves the controller alone *)

Ltac bind_cases H :=
  repeat match type of H with
         | bind ?r _ = Returned _ =>
             let E := fresh "E" in
             destruct r eqn:E; simpl in H; [| discriminate H]
         end.

Lemma update_temps_frame (s s1 : State) (temps : option (gmap string Z)) :
  update_temps s temps = Returned s1 ->
  controller s1 = controller s
  /\ spike_detected s1 = spike_detected s
  /\ spike_size s1 = spike_size s
  /\ usage_avg s1 = usage_avg s.
Proof.
  unfold update_temps. intros H.
  destruct (truthy temps) as [d |].
  - bind_cases H. injection H as <-. repeat split.
  - injection H as <-. repeat split.
Qed.

Lemma sense_and_propose_inv (s s1 : State) (i : TickInput) (p : Z * Reason) :
  sense_and_propose s i = Returned (s1, p) ->
  exists temps,
    get_sensor_data (sensor i) = Returned temps
    /\ update_temps s temps = Returned s1
    /\ propose_in s1 = Returned p.
Proof.
  unfold sense_and_propose. intros H. bind_cases H.
  injection H as <- <-. eauto.
Qed.

Lemma sense_and_propose_frame (s s1 : State) (i : TickInput) (p : Z * Reason) :
  sense_and_propose s i = Returned (s1, p) ->
  controller s1 = controller s /\ spike_detected s1 = spike_detected s.
Proof.
  intros H. apply sense_and_propose_inv in H as (temps & _ & U & _).
  apply update_temps_frame in U. tauto.
Qed.

Lemma controller_fields (s s' : State) :
  controller s' = controller s ->
  current_speed s' = current_speed s
  /\ cooldown_end s' = cooldown_end s
  /\ drop_delay_start s' = drop_delay_start s
  /\ last_trigger s' = last_trigger s.
Proof. unfold controller. intros H. injection H. auto. Qed.

Lemma main_tick_unfold (s s1 : State) (i : TickInput) (target : Z) (reason : Reason) :
  sense_and_propose s i = Returned (s1, (target, reason)) ->
  main_tick s i = apply_speed s1 target reason i.
Proof. unfold main_tick. now intros ->. Qed.

(** ** The no-change path *)

Lemma apply_speed_equal (s : State) (reason : Reason) (i : TickInput) :
  apply_speed s (current_speed s) reason i
  = Ran (clear_spike (set_drop_delay_start s 0%Q)) [].
Proof. unfold apply_speed. now rewrite Z.eqb_refl. Qed.

(** C8. A tick whose proposal equals [current_speed] produces no event at all
    (so no actuator call), keeps [current_speed], [cooldown_end] and
    [last_trigger], and clears [drop_delay_start]; a second such tick leaves
    the controller fields as the first one left them. *)
Theorem equal_proposal_is_idempotent
    (s s1 : State) (i : TickInput) (target : Z) (reason : Reason) :
  sense_and_propose s i = Returned (s1, (target, reason)) ->
  target = current_speed s1 ->
  exists s',
    main_tick s i = Ran s' []
    /\ controller s' = (current_speed s, cooldown_end s, 0%Q, last_trigger s)
    /\ forall (i2 : TickInput) (s2 : State) (target2 : Z) (reason2 : Reason),
        sense_and_propose s' i2 = Returned (s2, (target2, reason2)) ->
        target2 = current_speed s2 ->
        exists s'', main_tick s' i2 = Ran s'' [] /\ controller s'' = controller s'.
Proof.
  intros H ->.
  rewrite (main_tick_unfold _ _ _ _ _ H), apply_speed_equal.
  apply sense_and_propose_frame in H as [C _].
  apply controller_fields in C as (C1 & C2 & _ & C4).
  eexists. split; [reflexivity |]. split.
  - unfold controller. simpl. now rewrite C1, C2, C4.
  - intros i2 s2 target2 reason2 H2 ->.
    rewrite (main_tick_unfold _ _ _ _ _ H2), apply_speed_equal.
    apply sense_and_propose_frame in H2 as [D _].
    apply controller_fields in D as (D1 & D2 & _ & D4).
    eexists. split; [reflexivity |].
    unfold controller. simpl. now rewrite D1, D2, D4.
Qed.

Lemma equal_proposal_is_idempotent_witness :
  exists s', main_tick initial_state (tick_at 100 (uniform "22.000") ok_runs) = Ran s' [].
Proof.
  edestruct (fun s1 reason =>
               equal_proposal_is_idempotent
                 initial_state s1 (tick_at 100 (uniform "22.000") ok_runs) 25 reason)
    as (s' & H & _).
  - vm_compute. reflexivity.
  - reflexivity.
  - exists s'. exact H.
Defined.

(** ** The branches of the controller *)

Lemma apply_speed_higher (s : State) (target : Z) (reason : Reason) (i : TickInput) :
  target > current_speed s ->
  apply_speed s target reason i = change_speed s Increased target reason i.
Proof.
  intros H. unfold apply_speed.
  replace (target =? current_speed s) with false by (symmetry; apply Z.eqb_neq; lia).
  replace (target >? current_speed s) with true
    by (symmetry; rewrite Z.gtb_ltb; apply Z.ltb_lt; lia).
  reflexivity.
Qed.

Lemma apply_speed_lower (s : State) (target : Z) (reason : Reason) (i : TickInput) :
  target < current_speed s ->
  apply_speed s target reason i
  = if Qeq_bool (drop_delay_start s) 0 then
      Ran (clear_spike (set_drop_delay_start s (now i))) []
    else if (Qgeb (now i - drop_delay_start s) DROP_DELAY
             && Qgeb (now i) (cooldown_end s))%bool then
      change_speed s Decreased target reason i
    else Ran (clear_spike s) [].
Proof.
  intros H. unfold apply_speed.
  replace (target =? current_speed s) with false by (symmetry; apply Z.eqb_neq; lia).
  replace (target >? current_speed s) with false
    by (symmetry; rewrite Z.gtb_ltb; apply Z.ltb_ge; lia).
  replace (target >=? current_speed s) with false
    by (symmetry; rewrite Z.geb_leb; apply Z.leb_gt; lia).
  now rewrite andb_false_r.
Qed.

(** The three cases of a proposal against the current speed. *)
Lemma apply_speed_cases (s : State) (target : Z) (reason : Reason) (i : TickInput) :
  (target = current_speed s
   /\ apply_speed s target reason i = Ran (clear_spike (set_drop_delay_start s 0%Q)) [])
  \/ (target > current_speed s
      /\ apply_speed s target reason i = change_speed s Increased target reason i)
  \/ (target < current_speed s
      /\ apply_speed s target reason i
         = if Qeq_bool (drop_delay_start s) 0 then
             Ran (clear_spike (set_drop_delay_start s (now i))) []
           else if (Qgeb (now i - drop_delay_start s) DROP_DELAY
                    && Qgeb (now i) (cooldown_end s))%bool then
             change_speed s Decreased target reason i
           else Ran (clear_spike s) []).
Proof.
  destruct (Z.lt_trichotomy target (current_speed s)) as [H | [H | H]].
  - right. right. split; [exact H | now apply apply_speed_lower].
  - left. split; [exact H |]. rewrite H. apply apply_speed_equal.
  - right. left. split; [lia | apply apply_speed_higher; lia].
Qed.

Lemma change_speed_failure (s : State) (d : Direction) (v : Z) (r : Reason) (i : TickInput) :
  run_ipmitool (ipmi i) = false ->
  change_speed s d v r i
  = Ran (clear_spike s) [SetFanSpeed v (hex_speed v) false; WarnFailed d v].
Proof. unfold change_speed, set_fan_speed. now intros ->. Qed.

Lemma change_speed_success (s : State) (d : Direction) (v : Z) (r : Reason) (i : TickInput) :
  run_ipmitool (ipmi i) = true ->
  change_speed s d v r i
  = match get_fan_rpm (rpm_log i), get_fan_rpm (rpm_notify i) with
    | Returned _, Returned rpm =>
        Ran (clear_spike (record_change s v (now i) r))
            [SetFanSpeed v (hex_speed v) true;
             Notify d v rpm r (usage s) (usage_avg s) (max_temp s)]
    | Returned _, Raised e => Crashed e [SetFanSpeed v (hex_speed v) true]
    | Raised e, _ => Crashed e [SetFanSpeed v (hex_speed v) true]
    end.
Proof.
  unfold change_speed, set_fan_speed. intros ->.
  destruct (get_fan_rpm (rpm_log i)); [| reflexivity].
  destruct (get_fan_rpm (rpm_notify i)); reflexivity.
Qed.

Lemma change_speed_calls (s : State) (d : Direction) (v : Z) (r : Reason) (i : TickInput) :
  actuator_calls (events_of (change_speed s d v r i)) = [(v, run_ipmitool (ipmi i))].
Proof.
  destruct (run_ipmitool (ipmi i)) eqn:E.
  - rewrite (change_speed_success _ _ _ _ _ E).
    destruct (get_fan_rpm (rpm_log i)); [| reflexivity].
    destruct (get_fan_rpm (rpm_notify i)); reflexivity.
  - now rewrite (change_speed_failure _ _ _ _ _ E).
Qed.

Lemma change_speed_applied (s : State) (d : Direction) (v : Z) (r : Reason) (i : TickInput) :
  applied (events_of (change_speed s d v r i))
  = if run_ipmitool (ipmi i) then Some v else None.
Proof.
  destruct (run_ipmitool (ipmi i)) eqn:E.
  - rewrite (change_speed_success _ _ _ _ _ E).
    destruct (get_fan_rpm (rpm_log i)); [| reflexivity].
    destruct (get_fan_rpm (rpm_notify i)); reflexivity.
  - now rewrite (change_speed_failure _ _ _ _ _ E).
Qed.

(** All of the three runs of the command failed. *)
Lemma run_ipmitool_false (runs : nat -> Attempt) :
  run_ipmitool runs = false <->
  forall k : nat, (k < 3)%nat -> attempt_ok (runs k) = false.
Proof.
  unfold run_ipmitool. simpl. split.
  - intros H k Hk.
    destruct (attempt_ok (runs 0%nat)) eqn:E0; [discriminate |].
    destruct (attempt_ok (runs 1%nat)) eqn:E1; [discriminate |].
    destruct (attempt_ok (runs 2%nat)) eqn:E2; [discriminate |].
    destruct k as [| [| [| k]]]; auto. lia.
  - intros H. rewrite !H by lia. reflexivity.
Qed.

(** ** Increases *)

(** C3, as the code has it. A proposal above [current_speed], spike-driven or
    not, calls the actuator on the same tick, whatever the drop-delay timer,
    the cooldown and the clock are; when the call succeeds and the RPM reads
    return, the change is recorded with [cooldown_end = now + 30]. *)
Theorem higher_proposal_calls_actuator
    (s s1 : State) (i : TickInput) (target : Z) (reason : Reason) :
  sense_and_propose s i = Returned (s1, (target, reason)) ->
  target > current_speed s ->
  actuator_calls (events_of (main_tick s i)) = [(target, run_ipmitool (ipmi i))]
  /\ forall rpm1 rpm2 : Z,
      run_ipmitool (ipmi i) = true ->
      get_fan_rpm (rpm_log i) = Returned rpm1 ->
      get_fan_rpm (rpm_notify i) = Returned rpm2 ->
      exists s',
        main_tick s i
        = Ran s' [SetFanSpeed target (hex_speed target) true;
                  Notify Increased target rpm2 reason (usage s1) (usage_avg s1) (max_temp s1)]
        /\ controller s'
           = (target, (now i + HOLD_TIME)%Q, 0%Q,
              mkTrigger (usage_avg s1) (max_temp s1) (now i) reason).
Proof.
  intros H Hgt.
  rewrite (main_tick_unfold _ _ _ _ _ H).
  apply sense_and_propose_frame in H as [C _].
  apply controller_fields in C as (C1 & _).
  rewrite apply_speed_higher by lia.
  split; [apply change_speed_calls |].
  intros rpm1 rpm2 Hok R1 R2.
  rewrite (change_speed_success _ _ _ _ _ Hok), R1, R2.
  eexists. split; reflexivity.
Qed.

Lemma higher_proposal_calls_actuator_witness :
  actuator_calls
    (events_of (main_tick initial_state (tick_at 100 (uniform "35.000") ok_runs)))
  = [(40, true)].
Proof.
  edestruct (fun s1 reason =>
               higher_proposal_calls_actuator
                 initial_state s1 (tick_at 100 (uniform "35.000") ok_runs) 40 reason)
    as [H _].
  - vm_compute. reflexivity.
  - reflexivity.
  - exact H.
Defined.

(** C3 as stated fails: with the speed at 40, a detected spike of 7 proposes
    40, which is [>= current_speed], and the tick makes no actuator call. *)
Lemma spike_at_current_speed_makes_no_call :
  let s := state_after warm_then_spike in
  let i := tick_at 101 (uniform "22.000") ok_runs in
  is_some (run warm_then_spike) = true
  /\ (exists s1,
        sense_and_propose s i = Returned (s1, (40, SmallSpike 7))
        /\ spike_detected s1 = true
        /\ 40 >= current_speed s1)
  /\ actuator_calls (events_of (main_tick s i)) = [].
Proof.
  split; [reflexivity |]. split; [| reflexivity].
  eexists. split; [vm_compute; reflexivity |]. split; [reflexivity | discriminate].
Qed.

(** ** Actuator failure *)

(** C5. When the three runs of the set-speed command all fail and the tick
    did call the actuator (on the increase or on the decrease path), the tick
    ends normally, [current_speed], [cooldown_end], [drop_delay_start] and
    [last_trigger] are as before the tick, and the only events are the failed
    call and a warning: no notification. *)
Theorem failed_call_keeps_controller (s : State) (i : TickInput) :
  (forall k : nat, (k < 3)%nat -> attempt_ok (ipmi i k) = false) ->
  actuator_calls (events_of (main_tick s i)) <> [] ->
  exists (s' : State) (target : Z) (d : Direction),
    main_tick s i
    = Ran s' [SetFanSpeed target (hex_speed target) false; WarnFailed d target]
    /\ controller s' = controller s
    /\ existsb is_notify (events_of (main_tick s i)) = false.
Proof.
  intros Hfail Hcall. apply run_ipmitool_false in Hfail.
  unfold main_tick in *.
  destruct (sense_and_propose s i) as [[s1 [target reason]] | e] eqn:H;
    [| now elim Hcall].
  apply sense_and_propose_frame in H as [C _].
  destruct (apply_speed_cases s1 target reason i) as [[_ E] | [[_ E] | [_ E]]];
    rewrite E in *; clear E.
  - now elim Hcall.
  - rewrite (change_speed_failure _ _ _ _ _ Hfail).
    exists (clear_spike s1), target, Increased. repeat split. exact C.
  - destruct (Qeq_bool (drop_delay_start s1) 0); [now elim Hcall |].
    destruct (Qgeb (now i - drop_delay_start s1) DROP_DELAY
              && Qgeb (now i) (cooldown_end s1))%bool; [| now elim Hcall].
    rewrite (change_speed_failure _ _ _ _ _ Hfail).
    exists (clear_spike s1), target, Decreased. repeat split. exact C.
Qed.

Lemma failed_call_keeps_controller_witness :
  exists (s' : State) (target : Z) (d : Direction),
    main_tick initial_state (tick_at 100 (uniform "35.000") failing_runs)
    = Ran s' [SetFanSpeed target (hex_speed target) false; WarnFailed d target]
    /\ controller s' = controller initial_state.
Proof.
  destruct (failed_call_keeps_controller
              initial_state (tick_at 100 (uniform "35.000") failing_runs))
    as (s' & target & d & H & C & _).
  - intros k _. reflexivity.
  - vm_compute. discriminate.
  - exists s', target, d. split; [exact H | exact C].
Defined.

(** ** The drop-delay timer *)

(** C9. With a decrease pending and the delay not yet over, a tick proposing
    any speed below [current_speed] produces no event and leaves the timer
    (and the other controller fields) as they were, so a change of the lower
    target does not restart the delay.  A pending timer is cleared by a tick
    only if the proposal equals [current_speed] or the tick applied a change. *)
Theorem pending_timer_kept_by_lower_proposals
    (s s1 : State) (i : TickInput) (target : Z) (reason : Reason) :
  sense_and_propose s i = Returned (s1, (target, reason)) ->
  Qeq_bool (drop_delay_start s) 0 = false ->
  (target < current_speed s ->
   (now i - drop_delay_start s < DROP_DELAY)%Q ->
   exists s', main_tick s i = Ran s' [] /\ controller s' = controller s)
  /\ (forall (s' : State) (events : list Event),
        main_tick s i = Ran s' events ->
        Qeq_bool (drop_delay_start s') 0 = true ->
        target = current_speed s \/ applied events = Some target).
Proof.
  intros H Hpending.
  rewrite (main_tick_unfold _ _ _ _ _ H).
  apply sense_and_propose_frame in H as [C _].
  destruct (controller_fields _ _ C) as (C1 & C2 & C3 & C4).
  rewrite <- C1, <- C3 in *. split.
  - intros Hlt Hearly. rewrite apply_speed_lower by exact Hlt.
    rewrite Hpending.
    apply Qgeb_false in Hearly. rewrite Hearly. simpl.
    eexists. split; [reflexivity | exact C].
  - intros s' events Hrun Hclear.
    destruct (apply_speed_cases s1 target reason i) as [[E _] | [[_ E] | [_ E]]].
    + now left.
    + right. rewrite E in Hrun.
      pose proof (change_speed_applied s1 Increased target reason i) as A.
      rewrite Hrun in A. simpl in A.
      destruct (run_ipmitool (ipmi i)) eqn:Hok; [exact A |].
      rewrite (change_speed_failure _ _ _ _ _ Hok) in Hrun.
      injection Hrun as <- <-. simpl in Hclear. congruence.
    + right. rewrite E, Hpending in Hrun.
      destruct (Qgeb (now i - drop_delay_start s1) DROP_DELAY
                && Qgeb (now i) (cooldown_end s1))%bool.
      * pose proof (change_speed_applied s1 Decreased target reason i) as A.
        rewrite Hrun in A. simpl in A.
        destruct (run_ipmitool (ipmi i)) eqn:Hok; [exact A |].
        rewrite (change_speed_failure _ _ _ _ _ Hok) in Hrun.
        injection Hrun as <- <-. simpl in Hclear. congruence.
      * injection Hrun as <- <-. simpl in Hclear. congruence.
Qed.

Lemma pending_timer_kept_by_lower_proposals_witness :
  exists s',
    main_tick (state_after pending_drop) (tick_at 150 (uniform "35.000") ok_runs)
    = Ran s' []
    /\ controller s' = controller (state_after pending_drop).
Proof.
  edestruct (fun s1 reason =>
               pending_timer_kept_by_lower_proposals
                 (state_after pending_drop) s1
                 (tick_at 150 (uniform "35.000") ok_runs) 40 reason)
    as [H _].
  - vm_compute. reflexivity.
  - reflexivity.
  - apply H; vm_compute; reflexivity.
Defined.

(** ** What a tick does to the controller, when it applies a change *)

(** A successful set-speed call in a tick is a call for the proposal, and it
    is either an increase or a decrease that passed both guards. *)
Lemma applied_inv (s s1 : State) (i : TickInput) (target : Z) (reason : Reason) (v : Z) :
  sense_and_propose s i = Returned (s1, (target, reason)) ->
  applied (events_of (main_tick s i)) = Some v ->
  v = target
  /\ run_ipmitool (ipmi i) = true
  /\ (target > current_speed s
      \/ (target < current_speed s
          /\ Qeq_bool (drop_delay_start s) 0 = false
          /\ (DROP_DELAY <= now i - drop_delay_start s)%Q
          /\ (cooldown_end s <= now i)%Q)).
Proof.
  intros H A.
  rewrite (main_tick_unfold _ _ _ _ _ H) in A.
  apply sense_and_propose_frame in H as [C _].
  destruct (controller_fields _ _ C) as (C1 & C2 & C3 & C4).
  rewrite <- C1, <- C2, <- C3.
  destruct (apply_speed_cases s1 target reason i) as [[_ E] | [[G E] | [L E]]];
    rewrite E in A; clear E.
  - discriminate.
  - rewrite change_speed_applied in A.
    destruct (run_ipmitool (ipmi i)); [| discriminate].
    injection A as <-. auto.
  - destruct (Qeq_bool (drop_delay_start s1) 0) eqn:P; [discriminate |].
    destruct (Qgeb (now i - drop_delay_start s1) DROP_DELAY) eqn:G1;
      [| discriminate].
    destruct (Qgeb (now i) (cooldown_end s1)) eqn:G2; [| discriminate].
    simpl in A. rewrite change_speed_applied in A.
    destruct (run_ipmitool (ipmi i)); [| discriminate].
    injection A as <-.
    apply Qgeb_true in G1, G2. auto 10.
Qed.

(** The controller fields after a tick that ran to its end. *)
Lemma main_tick_controller
    (s s1 s' : State) (i : TickInput) (target : Z) (reason : Reason)
    (events : list Event) :
  sense_and_propose s i = Returned (s1, (target, reason)) ->
  main_tick s i = Ran s' events ->
  match applied events with
  | Some v =>
      controller s'
      = (v, (now i + HOLD_TIME)%Q, 0%Q,
         mkTrigger (usage_avg s1) (max_temp s1) (now i) reason)
  | None =>
      current_speed s' = current_speed s
      /\ cooldown_end s' = cooldown_end s
      /\ last_trigger s' = last_trigger s
      /\ ((target <> current_speed s /\ drop_delay_start s' = drop_delay_start s)
          \/ (target = current_speed s /\ drop_delay_start s' = 0%Q)
          \/ (target < current_speed s
              /\ Qeq_bool (drop_delay_start s) 0 = true
              /\ drop_delay_start s' = now i))
  end.
Proof.
  intros H R.
  rewrite (main_tick_unfold _ _ _ _ _ H) in R.
  apply sense_and_propose_frame in H as [C _].
  destruct (controller_fields _ _ C) as (C1 & C2 & C3 & C4).
  rewrite <- C1, <- C2, <- C3, <- C4.
  assert (Hchange : forall d,
             target <> current_speed s1 ->
             change_speed s1 d target reason i = Ran s' events ->
             match applied events with
             | Some v =>
                 controller s'
                 = (v, (now i + HOLD_TIME)%Q, 0%Q,
                    mkTrigger (usage_avg s1) (max_temp s1) (now i) reason)
             | None =>
                 current_speed s' = current_speed s1
                 /\ cooldown_end s' = cooldown_end s1
                 /\ last_trigger s' = last_trigger s1
                 /\ ((target <> current_speed s1
                      /\ drop_delay_start s' = drop_delay_start s1)
                     \/ (target = current_speed s1 /\ drop_delay_start s' = 0%Q)
                     \/ (target < current_speed s1
                         /\ Qeq_bool (drop_delay_start s1) 0 = true
                         /\ drop_delay_start s' = now i))
             end).
  { intros d Hne Hd. destruct (run_ipmitool (ipmi i)) eqn:Hok.
    - rewrite (change_speed_success _ _ _ _ _ Hok) in Hd.
      destruct (get_fan_rpm (rpm_log i)); [| discriminate].
      destruct (get_fan_rpm (rpm_notify i)); [| discriminate].
      injection Hd as <- <-. reflexivity.
    - rewrite (change_speed_failure _ _ _ _ _ Hok) in Hd.
      injection Hd as <- <-. simpl. auto 10. }
  destruct (apply_speed_cases s1 target reason i) as [[Q E] | [[G E] | [L E]]];
    rewrite E in R; clear E.
  - injection R as <- <-. simpl. auto 10.
  - eapply Hchange; [lia | exact R].
  - destruct (Qeq_bool (drop_delay_start s1) 0) eqn:P.
    + injection R as <- <-. simpl. auto 10.
    + destruct (Qgeb (now i - drop_delay_start s1) DROP_DELAY
                && Qgeb (now i) (cooldown_end s1))%bool.
      * eapply Hchange; [lia | exact R].
      * injection R as <- <-. simpl. split; [| split; [| split]]; auto.
        left. split; [lia | reflexivity].
Qed.

(** ** Runs *)

(** A property of the state and the journal that both loops preserve holds
    at the end of every run. *)
Lemma run_from_invariant (P : State -> list TickRec -> Prop) :
  (forall s j cpu, P s j -> P (monitor_step s cpu) j) ->
  (forall s j i s1 target reason s' events,
      P s j ->
      sense_and_propose s i = Returned (s1, (target, reason)) ->
      main_tick s i = Ran s' events ->
      P s' (mkTickRec (now i) target (current_speed s1) (is_some (applied events)) :: j)) ->
  forall acts s j s' j',
    P s j -> run_from s j acts = Some (s', j') -> P s' j'.
Proof.
  intros Hsample Htick. induction acts as [| a acts IH]; intros s j s' j' HP R.
  - injection R as <- <-. exact HP.
  - destruct a as [cpu | i]; simpl in R.
    + eapply IH; [| exact R]. now apply Hsample.
    + destruct (sense_and_propose s i) as [[s1 [target reason]] | e] eqn:E;
        [| discriminate].
      destruct (main_tick s i) as [s2 events | e events] eqn:M; [| discriminate].
      eapply IH; [| exact R]. eapply Htick; eauto.
Qed.

Lemma timer_explained_tick
    (s : State) (j : list TickRec) (i : TickInput) (s1 : State) (target : Z)
    (reason : Reason) (s' : State) (events : list Event) :
  timer_explained s j ->
  sense_and_propose s i = Returned (s1, (target, reason)) ->
  main_tick s i = Ran s' events ->
  timer_explained s'
    (mkTickRec (now i) target (current_speed s1) (is_some (applied events)) :: j).
Proof.
  intros HP H R. unfold timer_explained. intros Hset.
  pose proof (main_tick_controller _ _ _ _ _ _ _ H R) as K.
  apply sense_and_propose_frame in H as [C _].
  apply controller_fields in C as (C1 & _). rewrite C1.
  destruct (applied events) as [v |].
  - unfold controller in K. injection K as _ _ K _.
    rewrite K in Hset. discriminate.
  - destruct K as (_ & _ & _ & [[Hne K] | [[_ K] | (Hlt & _ & K)]]).
    + rewrite K in *. simpl.
      rewrite (HP Hset), orb_true_r.
      replace (target =? current_speed s) with false
        by (symmetry; apply Z.eqb_neq; exact Hne).
      reflexivity.
    + rewrite K in Hset. discriminate.
    + rewrite K. simpl.
      replace (target =? current_speed s) with false
        by (symmetry; apply Z.eqb_neq; lia).
      replace (target <? current_speed s) with true
        by (symmetry; apply Z.ltb_lt; lia).
      assert (Qeq_bool (now i) (now i) = true) as -> by (apply Qeq_bool_iff; reflexivity).
      reflexivity.
Qed.

Lemma timer_explained_run (acts : list Action) (s : State) (j : list TickRec) :
  run acts = Some (s, j) -> timer_explained s j.
Proof.
  apply (run_from_invariant timer_explained).
  - intros s0 j0 cpu H. exact H.
  - intros. eapply timer_explained_tick; eauto.
  - intros H. discriminate H.
Qed.

Lemma main_tick_ran_inv (s s' : State) (i : TickInput) (events : list Event) :
  main_tick s i = Ran s' events ->
  exists s1 target reason, sense_and_propose s i = Returned (s1, (target, reason)).
Proof.
  unfold main_tick.
  destruct (sense_and_propose s i) as [[s1 [target reason]] | e]; [eauto | discriminate].
Qed.

Lemma applied_sense (s : State) (i : TickInput) (v : Z) :
  applied (events_of (main_tick s i)) = Some v ->
  exists s1 target reason, sense_and_propose s i = Returned (s1, (target, reason)).
Proof.
  unfold main_tick.
  destruct (sense_and_propose s i) as [[s1 [target reason]] | e]; [eauto | discriminate].
Qed.

(** ** Decreases *)

(** C2, as the code has it. At the end of any run, a tick applies a decrease
    only if the drop-delay timer is set, at least 30 seconds have passed on it
    and the clock has reached [cooldown_end]; the timer was started by a tick
    proposing a lower speed, and every tick since proposed a speed other than
    the current one and changed nothing.  A tick whose proposal equals
    [current_speed] clears the timer. *)
Theorem decrease_waits_for_timer_and_cooldown
    (acts : list Action) (s : State) (j : list TickRec)
    (i : TickInput) (s1 : State) (target : Z) (reason : Reason) :
  run acts = Some (s, j) ->
  sense_and_propose s i = Returned (s1, (target, reason)) ->
  (forall v : Z,
      applied (events_of (main_tick s i)) = Some v ->
      v < current_speed s ->
      v = target
      /\ (DROP_DELAY <= now i - drop_delay_start s)%Q
      /\ (cooldown_end s <= now i)%Q
      /\ pending_since (drop_delay_start s) j = true)
  /\ (target = current_speed s ->
      exists s', main_tick s i = Ran s' [] /\ drop_delay_start s' = 0%Q).
Proof.
  intros Hrun H. split.
  - intros v A Hlt.
    destruct (applied_inv _ _ _ _ _ _ H A) as (-> & _ & [G | (_ & P & D & K)]);
      [lia |].
    repeat split; try assumption.
    exact (timer_explained_run _ _ _ Hrun P).
  - intros ->.
    rewrite (main_tick_unfold _ _ _ _ _ H).
    apply sense_and_propose_frame in H as [C _].
    apply controller_fields in C as (<- & _).
    rewrite apply_speed_equal. eexists. split; reflexivity.
Qed.

Lemma decrease_waits_for_timer_and_cooldown_witness :
  (DROP_DELAY <= 170 - drop_delay_start (state_after pending_drop))%Q
  /\ (cooldown_end (state_after pending_drop) <= 170)%Q.
Proof.
  edestruct (fun j s1 reason =>
               decrease_waits_for_timer_and_cooldown
                 pending_drop (state_after pending_drop) j
                 (tick_at 170 (uniform "22.000") ok_runs) s1 25 reason)
    as [H _].
  - vm_compute. reflexivity.
  - vm_compute. reflexivity.
  - destruct (H 25) as (_ & D & K & _).
    + vm_compute. reflexivity.
    + vm_compute. reflexivity.
    + split; [exact D | exact K].
Defined.

(** C2 as stated fails: the timer starts at clock 140 with a proposal of 25
    below the speed of 80; the tick at clock 169 proposes 100 and its actuator
    call fails; the tick at clock 170 applies the decrease to 25, although the
    lower proposal was not sustained from 140 to 170. *)
Lemma decrease_after_interrupted_proposal :
  let s := state_after interrupted_drop in
  let i := tick_at 170 (uniform "22.000") ok_runs in
  run interrupted_drop
  = Some (s, [mkTickRec 169 100 80 false; mkTickRec 140 25 80 false;
              mkTickRec 100 80 25 true])
  /\ drop_delay_start s = 140%Q
  /\ current_speed s = 80
  /\ applied (events_of (main_tick s i)) = Some 25
  /\ sustained_lower (drop_delay_start s)
       [mkTickRec 169 100 80 false; mkTickRec 140 25 80 false;
        mkTickRec 100 80 25 true] = false.
Proof. vm_compute. repeat split. Qed.

(** ** The cooldown *)

Lemma cooldown_kept_run (c : Q) (acts : list Action) (s s' : State) (j' : list TickRec) :
  cooldown_end s = c ->
  run_from s [] acts = Some (s', j') ->
  cooldown_kept c s' j'.
Proof.
  intros Hc. apply (run_from_invariant (cooldown_kept c)).
  - intros s0 j0 cpu H. exact H.
  - intros s0 j0 i s1 target reason s2 events HP H R. unfold cooldown_kept.
    simpl. intros Hq. apply orb_false_iff in Hq as [Hnow Hold].
    pose proof (main_tick_controller _ _ _ _ _ _ _ H R) as K.
    destruct (applied events); [discriminate |].
    destruct K as (_ & -> & _). exact (HP Hold).
  - intros _. exact Hc.
Qed.

(** C4, as the code has it. After a tick that changed the speed at clock [t],
    and as long as no later tick changed it, [cooldown_end] is [t + 30] and a
    tick applies a decrease only at a clock of at least [t + 30]; a proposal
    above the current speed calls the actuator whatever [cooldown_end] is. *)
Theorem cooldown_holds_back_decreases_only
    (s0 s : State) (i0 : TickInput) (e0 : list Event)
    (acts : list Action) (s' : State) (j' : list TickRec) (i : TickInput) :
  main_tick s0 i0 = Ran s e0 ->
  is_some (applied e0) = true ->
  run_from s [] acts = Some (s', j') ->
  existsb rec_applied j' = false ->
  cooldown_end s' = (now i0 + HOLD_TIME)%Q
  /\ (forall v : Z,
        applied (events_of (main_tick s' i)) = Some v ->
        v < current_speed s' ->
        (now i0 + HOLD_TIME <= now i)%Q)
  /\ (forall (s1 : State) (target : Z) (reason : Reason),
        sense_and_propose s' i = Returned (s1, (target, reason)) ->
        target > current_speed s' ->
        actuator_calls (events_of (main_tick s' i))
        = [(target, run_ipmitool (ipmi i))]).
Proof.
  intros R0 A0 Hrun Hquiet.
  assert (Hc : cooldown_end s' = (now i0 + HOLD_TIME)%Q).
  { destruct (main_tick_ran_inv _ _ _ _ R0) as (s1 & target & reason & H0).
    pose proof (main_tick_controller _ _ _ _ _ _ _ H0 R0) as K.
    destruct (applied e0) as [v0 |]; [| discriminate].
    unfold controller in K. injection K as _ K _ _.
    exact (cooldown_kept_run _ _ _ _ _ K Hrun Hquiet). }
  split; [exact Hc |]. split.
  - intros v A Hlt.
    destruct (applied_sense _ _ _ A) as (s1 & target & reason & H).
    destruct (applied_inv _ _ _ _ _ _ H A) as (-> & _ & [G | (_ & _ & _ & K)]);
      [lia |].
    rewrite <- Hc. exact K.
  - intros s1 target reason H G.
    rewrite (main_tick_unfold _ _ _ _ _ H).
    apply sense_and_propose_frame in H as [C _].
    apply controller_fields in C as (C1 & _).
    rewrite apply_speed_higher by lia. apply change_speed_calls.
Qed.

Lemma cooldown_holds_back_decreases_only_witness :
  cooldown_end (state_after pending_drop) = (100 + HOLD_TIME)%Q.
Proof.
  edestruct (fun e0 j' =>
               cooldown_holds_back_decreases_only
                 initial_state
                 (state_after [Tick (tick_at 100 (uniform "45.000") ok_runs)])
                 (tick_at 100 (uniform "45.000") ok_runs) e0
                 [Tick (tick_at 140 (uniform "22.000") ok_runs)]
                 (state_after pending_drop) j'
                 (tick_at 170 (uniform "22.000") ok_runs))
    as [H _].
  - vm_compute. reflexivity.
  - reflexivity.
  - vm_compute. reflexivity.
  - reflexivity.
  - exact H.
Defined.

(** C4 as stated fails: the tick at clock 100 raises the speed to 40 and sets
    [cooldown_end] to 130; the tick at clock 101 raises it to 80. *)
Lemma increase_during_cooldown :
  let i1 := tick_at 100 (uniform "35.000") ok_runs in
  let i2 := tick_at 101 (uniform "45.000") ok_runs in
  let s1 := state_after [Tick i1] in
  let s2 := state_after [Tick i1; Tick i2] in
  applied (events_of (main_tick initial_state i1)) = Some 40
  /\ (exists e1, main_tick initial_state i1 = Ran s1 e1)
  /\ cooldown_end s1 = 130%Q
  /\ applied (events_of (main_tick s1 i2)) = Some 80
  /\ (exists e2, main_tick s1 i2 = Ran s2 e2)
  /\ current_speed s1 = 40 /\ current_speed s2 = 80
  /\ (now i2 < cooldown_end s1)%Q.
Proof.
  vm_compute. repeat split; eexists; reflexivity.
Qed.

(** ** The temperature sampler *)

Lemma deque_append_length {A : Type} (w : list A) (x : A) :
  length (deque_append w x)
  = if (25 <=? length w)%nat then length w else S (length w).
Proof.
  unfold deque_append. destruct (25 <=? length w)%nat eqn:E.
  - apply Nat.leb_le in E. rewrite length_app. simpl.
    destruct w; simpl in *; lia.
  - rewrite length_app. simpl. lia.
Qed.

Lemma deque_append_more_than_one {A : Type} (w : list A) (x : A) :
  (1 <? length (deque_append w x))%nat = negb (Nat.eqb (length w) 0).
Proof.
  rewrite deque_append_length.
  destruct (25 <=? length w)%nat eqn:E.
  - apply Nat.leb_le in E. destruct w; simpl in *; [lia |].
    apply Nat.ltb_lt. lia.
  - destruct w; reflexivity.
Qed.

(** A read that yields a non-empty dict and raises nothing assigns the
    temperature globals and locals from it. *)
Lemma update_temps_read (s s1 : State) (temps : gmap string Z) :
  temps <> ∅ ->
  update_temps s (Some temps) = Returned s1 ->
  exists rate,
    let window := deque_append (temp_window s) (max_temp s1) in
    rate_of window (max_temp s1) = Returned rate
    /\ s1 = set_temps s (max_temp s1) window
              (trend_of window (max_temp s1) (last_max_temp s)) rate.
Proof.
  intros Hne H. unfold update_temps, truthy in H.
  rewrite bool_decide_eq_false_2 in H by exact Hne.
  bind_cases H. injection H as <-. simpl. eauto.
Qed.

(** C7, as the code has it. On a successful read the trend is [Stable] when
    the new maximum equals the previous one and [Falling] when it is below
    it; it is [Rising] when it is above it and the window already held a
    sample.  On the first sample the trend is never [Rising]. *)
Theorem trend_against_previous_max (s s1 : State) (temps : gmap string Z) :
  temps <> ∅ ->
  update_temps s (Some temps) = Returned s1 ->
  (max_temp s1 = last_max_temp s -> temp_trend s1 = Some Stable)
  /\ (max_temp s1 < last_max_temp s -> temp_trend s1 = Some Falling)
  /\ (max_temp s1 > last_max_temp s -> temp_window s <> [] ->
      temp_trend s1 = Some Rising)
  /\ (temp_window s = [] -> temp_trend s1 <> Some Rising).
Proof.
  intros Hne H.
  destruct (update_temps_read _ _ _ Hne H) as (rate & _ & E).
  set (mt := max_temp s1) in *. rewrite E. simpl. clearbody mt.
  unfold trend_of. rewrite deque_append_more_than_one.
  repeat split.
  - intros ->. rewrite Z.eqb_refl.
    replace (last_max_temp s >? last_max_temp s) with false
      by (symmetry; rewrite Z.gtb_ltb; apply Z.ltb_irrefl).
    now rewrite andb_false_r.
  - intros Hlt.
    replace (mt >? last_max_temp s) with false
      by (symmetry; rewrite Z.gtb_ltb; apply Z.ltb_ge; lia).
    replace (mt =? last_max_temp s) with false
      by (symmetry; apply Z.eqb_neq; lia).
    now rewrite andb_false_r.
  - intros Hgt Hw.
    replace (mt >? last_max_temp s) with true
      by (symmetry; rewrite Z.gtb_ltb; apply Z.ltb_lt; lia).
    destruct (temp_window s); [contradiction | reflexivity].
  - intros ->. simpl. destruct (mt =? last_max_temp s); discriminate.
Qed.

Lemma trend_against_previous_max_witness :
  exists s1,
    update_temps (state_after (removelast rising_reads)) (Some (all_at 25)) = Returned s1
    /\ temp_trend s1 = Some Rising.
Proof.
  eexists. split.
  - vm_compute. reflexivity.
  - eapply (trend_against_previous_max
              (state_after (removelast rising_reads)) _ (all_at 25)).
    + vm_compute. discriminate.
    + vm_compute. reflexivity.
    + vm_compute. reflexivity.
    + vm_compute. discriminate.
Defined.

(** C7 as stated fails on the first sample after startup: 30 degrees are above
    the previous maximum of 25, and the trend is [Falling]. *)
Lemma first_sample_above_previous_is_falling :
  let i := tick_at 100 (uniform "30.000") ok_runs in
  exists s1 p,
    sense_and_propose initial_state i = Returned (s1, p)
    /\ temp_window initial_state = []
    /\ max_temp s1 = 30
    /\ last_max_temp initial_state = 25
    /\ temp_trend s1 = Some Falling.
Proof.
  eexists. eexists. split; [vm_compute; reflexivity |]. repeat split.
Qed.

(** ** Failed reads *)

Lemma update_temps_skip (s : State) (temps : option (gmap string Z)) :
  truthy temps = None -> update_temps s temps = Returned s.
Proof. unfold update_temps. now intros ->. Qed.

Lemma change_speed_temperature
    (s s' : State) (d : Direction) (v : Z) (r : Reason) (i : TickInput)
    (events : list Event) :
  change_speed s d v r i = Ran s' events -> temperature s' = temperature s.
Proof.
  unfold change_speed. intros H.
  destruct (set_fan_speed v (ipmi i)).
  - destruct (get_fan_rpm (rpm_log i)); [| discriminate].
    destruct (get_fan_rpm (rpm_notify i)); [| discriminate].
    now injection H as <- <-.
  - now injection H as <- <-.
Qed.

Lemma apply_speed_temperature
    (s s' : State) (target : Z) (reason : Reason) (i : TickInput)
    (events : list Event) :
  apply_speed s target reason i = Ran s' events -> temperature s' = temperature s.
Proof.
  intros H.
  destruct (apply_speed_cases s target reason i) as [[_ E] | [[_ E] | [_ E]]];
    rewrite E in H; clear E.
  - now injection H as <- <-.
  - eapply change_speed_temperature, H.
  - destruct (Qeq_bool (drop_delay_start s) 0); [now injection H as <- <- |].
    destruct (Qgeb (now i - drop_delay_start s) DROP_DELAY
              && Qgeb (now i) (cooldown_end s))%bool.
    + eapply change_speed_temperature, H.
    + now injection H as <- <-.
Qed.

Lemma rate_is_of_last_read_update (s s1 : State) (j : list TickRec)
    (temps : option (gmap string Z)) :
  rate_is_of_last_read s j ->
  update_temps s temps = Returned s1 ->
  rate_is_of_last_read s1 j.
Proof.
  intros HP U. destruct (truthy temps) as [d |] eqn:T.
  - assert (temps = Some d /\ d <> ∅) as [-> Hne].
    { unfold truthy in T. destruct temps as [d' |]; [| discriminate].
      destruct (bool_decide (d' = ∅)) eqn:B; [discriminate |].
      injection T as ->. split; [reflexivity |].
      now apply bool_decide_eq_false in B. }
    destruct (update_temps_read _ _ _ Hne U) as (rate & R & E).
    intros _. exists rate. rewrite E at 1 2 3. simpl. rewrite E in R. simpl in R.
    split; [exact R | reflexivity].
  - rewrite (update_temps_skip _ _ T) in U. injection U as <-. exact HP.
Qed.

Lemma rate_is_of_last_read_run (acts : list Action) (s : State) (j : list TickRec) :
  run acts = Some (s, j) -> rate_is_of_last_read s j.
Proof.
  apply (run_from_invariant rate_is_of_last_read).
  - intros s0 j0 cpu H. exact H.
  - intros s0 j0 i s1 target reason s' events HP H R.
    rewrite (main_tick_unfold _ _ _ _ _ H) in R.
    apply apply_speed_temperature in R.
    apply sense_and_propose_inv in H as (temps & _ & U & _).
    pose proof (rate_is_of_last_read_update _ _ j0 _ HP U) as HP1.
    unfold temperature in R. injection R as R1 R2 R3.
    unfold rate_is_of_last_read. rewrite R1, R2, R3. exact HP1.
  - intros H. now elim H.
Qed.

(** C10. At the end of any run, with five or more entries in the window, a
    tick whose read fails keeps the state of the temperature sampler and
    proposes from the rate bound at the last successful read; without a spike
    and below 30 degrees the proposal is the fast-rise speed 80 exactly when
    that rate is above 0.5. *)
Theorem failed_read_proposes_from_last_rate
    (acts : list Action) (s : State) (j : list TickRec) (i : TickInput) :
  run acts = Some (s, j) ->
  get_sensor_data (sensor i) = Returned None ->
  (5 <= length (temp_window s))%nat ->
  exists rate,
    rate_of (temp_window s) (max_temp s) = Returned rate
    /\ temp_rate s = Some rate
    /\ sense_and_propose s i
       = (let* p := propose (spike_detected s) (spike_size s) (max_temp s)
                            (Some rate) (length (temp_window s)) in
          Returned (s, p))
    /\ (spike_detected s = false ->
        max_temp s < 30 ->
        exists reason,
          sense_and_propose s i
          = Returned (s, (if Qgtb rate 0.5 then 80 else 25, reason))).
Proof.
  intros Hrun Hfail Hlen.
  destruct (rate_is_of_last_read_run _ _ _ Hrun) as (rate & R & B).
  { intros E. rewrite E in Hlen. simpl in Hlen. lia. }
  exists rate. split; [exact R |]. split; [exact B |].
  assert (S : sense_and_propose s i
              = (let* p := propose (spike_detected s) (spike_size s) (max_temp s)
                                   (Some rate) (length (temp_window s)) in
                 Returned (s, p))).
  { unfold sense_and_propose. rewrite Hfail. simpl.
    unfold propose_in. now rewrite B. }
  split; [exact S |].
  intros Hspike Hcool. rewrite S, Hspike. unfold propose.
  replace (max_temp s >=? 50) with false by (symmetry; rewrite Z.geb_leb; apply Z.leb_gt; lia).
  replace (max_temp s >=? 45) with false by (symmetry; rewrite Z.geb_leb; apply Z.leb_gt; lia).
  replace (max_temp s >=? 40) with false by (symmetry; rewrite Z.geb_leb; apply Z.leb_gt; lia).
  replace (max_temp s >=? 30) with false by (symmetry; rewrite Z.geb_leb; apply Z.leb_gt; lia).
  replace (5 <=? length (temp_window s))%nat with true
    by (symmetry; apply Nat.leb_le; exact Hlen).
  destruct (Qgtb rate 0.5); simpl; eauto.
Qed.

Lemma failed_read_proposes_from_last_rate_witness :
  exists reason,
    sense_and_propose (state_after rising_reads) (failed_read 105)
    = Returned (state_after rising_reads, (80, reason)).
Proof.
  edestruct (fun j =>
               failed_read_proposes_from_last_rate
                 rising_reads (state_after rising_reads) j (failed_read 105))
    as (rate & R & B & _ & H).
  - vm_compute. reflexivity.
  - reflexivity.
  - vm_compute. repeat constructor.
  - destruct H as (reason & H); [reflexivity | reflexivity |].
    exists reason. rewrite H.
    replace (Qgtb rate 0.5) with true; [reflexivity |].
    revert B. vm_compute. intros B. injection B as <-. reflexivity.
Defined.

(** The cases the tick does handle: when the sensor command exits with an
    error the read returns [None]; for [None] and for an empty dict the tick
    leaves the temperature globals as they are. *)
Lemma called_process_error_is_skipped (s : State) :
  get_sensor_data SensorCalledProcessError = Returned None
  /\ update_temps s None = Returned s
  /\ update_temps s (Some ∅) = Returned s.
Proof. repeat split. Qed.

(** C6 fails on the code. A row whose reading is [na] makes the read raise
    [ValueError], a monitored row without a second field makes it raise
    [IndexError], and a table without the exhaust row makes the tick raise
    [KeyError]: in each case the loop of [main] ends with the exception. *)
Theorem unparsable_sensor_output_raises :
  get_sensor_data table_without_reading = Raised ValueError
  /\ main_tick initial_state (tick_at 100 table_without_reading ok_runs)
     = Crashed ValueError []
  /\ get_sensor_data (SensorOutput "Temp") = Raised IndexError
  /\ main_tick initial_state (tick_at 100 (SensorOutput "Temp") ok_runs)
     = Crashed IndexError []
  /\ (exists d, get_sensor_data table_without_rows = Returned (Some d)
                /\ d = <["inlet" := 22]> ∅)
  /\ main_tick initial_state (tick_at 100 table_without_rows ok_runs)
     = Crashed (KeyError "exhaust") [].
Proof.
  repeat split; try (vm_compute; reflexivity).
  eexists. split; vm_compute; reflexivity.
Qed.

(** ** The guard of line 199 protects the unbound local *)


(** * Further properties of the code *)

(** ** Proposals and speeds are levels *)

Ltac propose_cases H :=
  repeat match type of H with
         | (if ?c then _ else _) = _ => destruct c
         | match ?r with Some _ => _ | None => _ end = _ => destruct r
         end;
  try discriminate H.

Lemma propose_in_level (s : State) (target : Z) (reason : Reason) :
  propose_in s = Returned (target, reason) -> In target levels.
Proof.
  unfold propose_in, propose, levels. intros H.
  propose_cases H; injection H as <- _; simpl; tauto.
Qed.

(** X1. Whatever its inputs, a proposal of the decision engine is one of the
    five speeds of the table of [set_fan_speed]. *)
Theorem proposal_is_a_level
    (sd : bool) (size : Q) (mt : Z) (rate : option Q) (wl : nat)
    (speed : Z) (reason : Reason) :
  propose sd size mt rate wl = Returned (speed, reason) ->
  In speed levels.
Proof.
  unfold propose, levels. intros H.
  propose_cases H; injection H as <- _; simpl; tauto.
Qed.

Lemma proposal_is_a_level_witness : In 80 levels.
Proof.
  exact (proposal_is_a_level false 0 46 None 0%nat 80 (ModerateTemp 46) eq_refl).
Defined.

(** X2. At the end of any run [current_speed] is one of the five levels: the
    actuator is only ever asked for a speed of the table. *)
Theorem current_speed_is_a_level (acts : list Action) (s : State) (j : list TickRec) :
  run acts = Some (s, j) -> In (current_speed s) levels.
Proof.
  apply (run_from_invariant (fun s _ => In (current_speed s) levels)).
  - intros s0 j0 cpu H. exact H.
  - intros s0 j0 i s1 target reason s' events HP H R.
    pose proof (main_tick_controller _ _ _ _ _ _ _ H R) as K.
    destruct (applied events) as [v |] eqn:A.
    + unfold controller in K. injection K as K _ _ _. rewrite K.
      assert (A' : applied (events_of (main_tick s0 i)) = Some v)
        by (rewrite R; exact A).
      destruct (applied_inv _ _ _ _ _ _ H A') as (-> & _).
      apply sense_and_propose_inv in H as (temps & _ & _ & P).
      eapply propose_in_level, P.
    + destruct K as (-> & _). exact HP.
  - simpl. tauto.
Qed.

Lemma current_speed_is_a_level_witness :
  In (current_speed (state_after pending_drop)) levels.
Proof.
  eapply (current_speed_is_a_level pending_drop (state_after pending_drop)).
  vm_compute. reflexivity.
Defined.

(** ** Order of the bands *)

(** X3. With a spike detected, a larger spike never proposes a lower speed,
    whatever the other inputs are, and the proposal is at least 40. *)
Theorem spike_bands_are_monotone
    (size size' : Q) (mt mt' : Z) (rate rate' : option Q) (wl wl' : nat)
    (v v' : Z) (r r' : Reason) :
  (size <= size')%Q ->
  propose true size mt rate wl = Returned (v, r) ->
  propose true size' mt' rate' wl' = Returned (v', r') ->
  40 <= v <= v'.
Proof.
  unfold propose. rewrite !Qgtb_dec_lt. intros Hle H H'.
  repeat match type of H with
         | context [Qlt_le_dec ?a ?b] => destruct (Qlt_le_dec a b)
         end;
    injection H as <- _;
    repeat match type of H' with
           | context [Qlt_le_dec ?a ?b] => destruct (Qlt_le_dec a b)
           end;
    injection H' as <- _; try lia; exfalso; lra.
Qed.

Lemma spike_bands_are_monotone_witness : 40 <= 60 <= 100.
Proof.
  apply (spike_bands_are_monotone 12 30 20 55 None None 0%nat 0%nat
           60 100 (ModerateSpike 12) (ExtremeSpike 30)).
  - unfold Qle. simpl. lia.
  - reflexivity.
  - reflexivity.
Defined.

(** X4. Without a spike, and apart from the fast-rise override (from 30
    degrees upward, or with fewer than five window entries, or with a rate of
    at most 0.5), a higher maximum temperature never proposes a lower speed. *)
Theorem temperature_bands_are_monotone
    (mt mt' : Z) (size size' rate : Q) (wl : nat) (v v' : Z) (r r' : Reason) :
  mt <= mt' ->
  30 <= mt \/ (wl < 5)%nat \/ (rate <= 0.5)%Q ->
  propose false size mt (Some rate) wl = Returned (v, r) ->
  propose false size' mt' (Some rate) wl = Returned (v', r') ->
  v <= v'.
Proof.
  unfold propose. rewrite !Zgeb_dec_le, !leb_dec_le, !Qgtb_dec_lt.
  intros Hle Hcalm H H'.
  repeat match type of H with
         | context [Z_le_dec ?a ?b] => destruct (Z_le_dec a b)
         | context [le_dec ?a ?b] => destruct (le_dec a b)
         | context [Qlt_le_dec ?a ?b] => destruct (Qlt_le_dec a b)
         end;
    injection H as <- _;
    repeat match type of H' with
           | context [Z_le_dec ?a ?b] => destruct (Z_le_dec a b)
           | context [le_dec ?a ?b] => destruct (le_dec a b)
           | context [Qlt_le_dec ?a ?b] => destruct (Qlt_le_dec a b)
           end;
    injection H' as <- _; try lia;
    destruct Hcalm as [Hc | [Hc | Hc]]; try lia; exfalso; lra.
Qed.

Lemma temperature_bands_are_monotone_witness : 60 <= 80.
Proof.
  apply (temperature_bands_are_monotone 41 49 0 0 2 9%nat
           60 80 (SustainedTemp 41) (ModerateTemp 49)).
  - lia.
  - left. lia.
  - reflexivity.
  - reflexivity.
Defined.

(** X5. The fast-rise override outranks the bands from 30 to 44 degrees: with
    five window entries and a rate above 0.5, a maximum below 30 degrees
    proposes 80 while any maximum from 30 to 44 degrees proposes less. *)
Theorem fast_rise_outranks_warm_bands
    (mt mt' : Z) (size size' rate : Q) (wl : nat) :
  mt < 30 ->
  30 <= mt' < 45 ->
  (5 <= wl)%nat ->
  (0.5 < rate)%Q ->
  propose false size mt (Some rate) wl = Returned (80, FastRise rate)
  /\ exists v' r',
      propose false size' mt' (Some rate) wl = Returned (v', r') /\ v' < 80.
Proof.
  unfold propose. rewrite !Zgeb_dec_le, !leb_dec_le, !Qgtb_dec_lt.
  intros Hcool Hwarm Hlen Hrate. split.
  - repeat match goal with
           | |- context [Z_le_dec ?a ?b] => destruct (Z_le_dec a b); try lia
           end.
    destruct (le_dec 5 wl); [| lia].
    destruct (Qlt_le_dec 0.5 rate); [reflexivity | exfalso; lra].
  - repeat match goal with
           | |- context [Z_le_dec ?a ?b] => destruct (Z_le_dec a b); try lia
           end; eexists; eexists; (split; [reflexivity | lia]).
Qed.

Lemma fast_rise_outranks_warm_bands_witness :
  propose false 0 29 (Some 1%Q) 5%nat = Returned (80, FastRise 1).
Proof.
  apply (fast_rise_outranks_warm_bands 29 30 0 0 1 5%nat).
  - lia.
  - lia.
  - lia.
  - unfold Qlt. simpl. lia.
Defined.

(** ** The rolling windows *)

(** X6. Appending to a window of at most 25 entries keeps the newest 25 of
    the old entries followed by the new one: at 25 entries the oldest one
    leaves, and the result never has more than 25. *)
Theorem deque_append_keeps_newest {A : Type} (w : list A) (x : A) :
  (length w <= 25)%nat ->
  deque_append w x = skipn (length (w ++ [x]) - 25) (w ++ [x])
  /\ (length (deque_append w x) <= 25)%nat
  /\ List.last (deque_append w x) x = x.
Proof.
  intros Hlen. rewrite length_app. change (length [x]) with 1%nat.
  unfold deque_append. destruct (25 <=? length w)%nat eqn:E.
  - apply Nat.leb_le in E.
    replace (length w + 1 - 25)%nat with 1%nat by lia.
    destruct w as [| a w]; [simpl in E; lia |].
    split; [reflexivity |]. split.
    + simpl in *. rewrite length_app. simpl. lia.
    + apply last_last.
  - apply Nat.leb_gt in E.
    replace (length w + 1 - 25)%nat with 0%nat by lia.
    split; [reflexivity |]. split.
    + rewrite length_app. simpl. lia.
    + apply last_last.
Qed.

Lemma deque_append_keeps_newest_witness :
  deque_append [1; 2; 3] 4 = [1; 2; 3; 4].
Proof.
  destruct (deque_append_keeps_newest [1; 2; 3] 4) as [H _].
  - simpl. lia.
  - rewrite H. reflexivity.
Defined.

Lemma deque_append_bounded {A : Type} (w : list A) (x : A) :
  (length w <= 25)%nat -> (length (deque_append w x) <= 25)%nat.
Proof.
  intros H. rewrite deque_append_length.
  destruct (25 <=? length w)%nat eqn:E; [exact H |].
  apply Nat.leb_gt in E. lia.
Qed.

Lemma change_speed_sampler
    (s s' : State) (d : Direction) (v : Z) (r : Reason) (i : TickInput)
    (events : list Event) :
  change_speed s d v r i = Ran s' events -> sampler s' = sampler s.
Proof.
  unfold change_speed. intros H.
  destruct (set_fan_speed v (ipmi i)).
  - destruct (get_fan_rpm (rpm_log i)); [| discriminate].
    destruct (get_fan_rpm (rpm_notify i)); [| discriminate].
    now injection H as <- <-.
  - now injection H as <- <-.
Qed.

Lemma apply_speed_sampler
    (s s' : State) (target : Z) (reason : Reason) (i : TickInput)
    (events : list Event) :
  apply_speed s target reason i = Ran s' events -> sampler s' = sampler s.
Proof.
  intros H.
  destruct (apply_speed_cases s target reason i) as [[_ E] | [[_ E] | [_ E]]];
    rewrite E in H; clear E.
  - now injection H as <- <-.
  - eapply change_speed_sampler, H.
  - destruct (Qeq_bool (drop_delay_start s) 0); [now injection H as <- <- |].
    destruct (Qgeb (now i - drop_delay_start s) DROP_DELAY
              && Qgeb (now i) (cooldown_end s))%bool.
    + eapply change_speed_sampler, H.
    + now injection H as <- <-.
Qed.

Lemma update_temps_sampler (s s1 : State) (temps : option (gmap string Z)) :
  update_temps s temps = Returned s1 -> sampler s1 = sampler s.
Proof.
  unfold update_temps. intros H.
  destruct (truthy temps) as [d |].
  - bind_cases H. now injection H as <-.
  - now injection H as <-.
Qed.

(** A tick only reads the globals of the usage sampler. *)
Lemma main_tick_sampler (s s' : State) (i : TickInput) (events : list Event) :
  main_tick s i = Ran s' events -> sampler s' = sampler s.
Proof.
  intros R.
  destruct (main_tick_ran_inv _ _ _ _ R) as (s1 & target & reason & H).
  rewrite (main_tick_unfold _ _ _ _ _ H) in R.
  apply apply_speed_sampler in R. rewrite R.
  apply sense_and_propose_inv in H as (temps & _ & U & _).
  eapply update_temps_sampler, U.
Qed.

(** The window of a state after the update of a tick: the old one, or the
    old one with the new maximum appended. *)
Lemma update_temps_window (s s1 : State) (temps : option (gmap string Z)) :
  update_temps s temps = Returned s1 ->
  temp_window s1 = temp_window s
  \/ temp_window s1 = deque_append (temp_window s) (max_temp s1).
Proof.
  intros U. destruct (truthy temps) as [d |] eqn:T.
  - assert (temps = Some d /\ d <> ∅) as [-> Hne].
    { unfold truthy in T. destruct temps as [d' |]; [| discriminate].
      destruct (bool_decide (d' = ∅)) eqn:B; [discriminate |].
      injection T as ->. split; [reflexivity |].
      now apply bool_decide_eq_false in B. }
    destruct (update_temps_read _ _ _ Hne U) as (rate & _ & E).
    right. rewrite E at 1. reflexivity.
  - rewrite (update_temps_skip _ _ T) in U. injection U as <-. now left.
Qed.

(** X7. At the end of any run neither rolling window holds more than 25
    entries. *)
Theorem windows_hold_at_most_25 (acts : list Action) (s : State) (j : list TickRec) :
  run acts = Some (s, j) ->
  (length (temp_window s) <= 25)%nat /\ (length (usage_window s) <= 25)%nat.
Proof.
  apply (run_from_invariant
           (fun s _ => (length (temp_window s) <= 25)%nat
                       /\ (length (usage_window s) <= 25)%nat)).
  - intros s0 j0 cpu [Ht Hu]. simpl. split; [exact Ht |].
    now apply deque_append_bounded.
  - intros s0 j0 i s1 target reason s' events [Ht Hu] H R.
    pose proof (main_tick_sampler _ _ _ _ R) as F.
    unfold sampler in F. injection F as _ _ _ F _. rewrite F.
    split; [| exact Hu].
    rewrite (main_tick_unfold _ _ _ _ _ H) in R.
    apply apply_speed_temperature in R.
    unfold temperature in R. injection R as _ R _. rewrite R.
    apply sense_and_propose_inv in H as (temps & _ & U & _).
    destruct (update_temps_window _ _ _ U) as [-> | ->]; [exact Ht |].
    now apply deque_append_bounded.
  - simpl. lia.
Qed.

Lemma windows_hold_at_most_25_witness :
  (length (temp_window (state_after rising_reads)) <= 25)%nat.
Proof.
  edestruct (fun j =>
               windows_hold_at_most_25 rising_reads (state_after rising_reads) j)
    as [H _].
  - vm_compute. reflexivity.
  - exact H.
Defined.

(** ** The temperature rate *)

Lemma fold_min_lower (xs : list Z) (x : Z) :
  fold_left Z.min xs x <= x
  /\ forall y, In y xs -> fold_left Z.min xs x <= y.
Proof.
  revert x. induction xs as [| a xs IH]; intros x; simpl.
  - split; [lia | tauto].
  - destruct (IH (Z.min x a)) as [H1 H2]. split; [lia |].
    intros y [<- | Hy]; [lia | now apply H2].
Qed.

Lemma fold_min_member (xs : list Z) (x : Z) :
  In (fold_left Z.min xs x) (x :: xs).
Proof.
  revert x. induction xs as [| a xs IH]; intros x; simpl.
  - now left.
  - destruct (IH (Z.min x a)) as [H | H].
    + destruct (Z.min_spec x a) as [[_ E] | [_ E]].
      * left. congruence.
      * right. left. congruence.
    + auto.
Qed.

(** [min] returns a smallest element. *)
Lemma py_min_spec (l : list Z) (m : Z) :
  py_min l = Returned m -> In m l /\ forall y, In y l -> m <= y.
Proof.
  destruct l as [| x xs]; [discriminate |]. simpl. intros H. injection H as <-.
  split; [apply fold_min_member |].
  destruct (fold_min_lower xs x) as [H1 H2].
  intros y [<- | Hy]; [exact H1 | now apply H2].
Qed.

Lemma deque_append_snoc {A : Type} (w : list A) (x : A) :
  exists l : list A, deque_append w x = (l ++ [x])%list.
Proof.
  unfold deque_append. destruct (25 <=? length w)%nat; eauto.
Qed.

(** The sample just appended is among the last five. *)
Lemma last5_has_newest (w : list Z) (mt : Z) :
  In mt (last5 (deque_append w mt)).
Proof.
  destruct (deque_append_snoc w mt) as (l & ->).
  unfold last5. rewrite length_app. simpl.
  rewrite skipn_app. apply in_or_app. right.
  replace (length l + 1 - 5 - length l)%nat with 0%nat by lia.
  simpl. now left.
Qed.

Lemma rate_value_nonneg (z : Z) : 0 <= z -> (0 <= inject_Z z / 5)%Q.
Proof.
  intros H. unfold Qle, Qdiv, Qmult, Qinv, inject_Z. simpl. lia.
Qed.

Lemma rate_value_fast (z : Z) : Qgtb (inject_Z z / 5) 0.5 = true <-> 3 <= z.
Proof.
  rewrite Qgtb_true.
  unfold Qlt, Qdiv, Qmult, Qinv, inject_Z. simpl. lia.
Qed.

(** The rate right after an append: the rise of the new maximum over the
    smallest of the last five entries, divided by 5. *)
Lemma rate_of_append (w : list Z) (mt : Z) :
  let window := deque_append w mt in
  ((5 <= length window)%nat
   /\ exists m,
       rate_of window mt = Returned (inject_Z (mt - m) / 5)%Q
       /\ In m (last5 window)
       /\ (forall y, In y (last5 window) -> m <= y)
       /\ m <= mt)
  \/ ((length window < 5)%nat /\ rate_of window mt = Returned 0%Q).
Proof.
  intros window. unfold rate_of.
  destruct (5 <=? length window)%nat eqn:E.
  - left. apply Nat.leb_le in E. split; [exact E |].
    pose proof (last5_has_newest w mt) as Hin. fold window in Hin.
    destruct (py_min (last5 window)) as [m | e] eqn:M.
    + destruct (py_min_spec _ _ M) as [Hm Hmin].
      exists m. simpl. repeat split; auto.
    + destruct (last5 window); [contradiction | discriminate].
  - right. apply Nat.leb_gt in E. split; [exact E | reflexivity].
Qed.

Lemma rate_of_append_nonneg (w : list Z) (mt : Z) (r : Q) :
  rate_of (deque_append w mt) mt = Returned r -> (0 <= r)%Q.
Proof.
  intros H.
  destruct (rate_of_append w mt) as [(_ & m & R & _ & _ & Hm) | (_ & R)];
    rewrite R in H; injection H as <-.
  - apply rate_value_nonneg. lia.
  - apply Qle_refl.
Qed.

(** X8. The rate computed after appending the new maximum to the window
    never raises and is never negative, and it is above 0.5 (the fast-rise
    test) exactly when the window then holds five entries and one of its last
    five is at least 3 degrees below the new maximum. *)
Theorem rate_measures_rise_over_last_five (w : list Z) (mt : Z) :
  let window := deque_append w mt in
  exists r,
    rate_of window mt = Returned r
    /\ (0 <= r)%Q
    /\ (Qgtb r 0.5 = true <->
        (5 <= length window)%nat
        /\ exists m, In m (last5 window) /\ m + 3 <= mt).
Proof.
  intros window.
  destruct (rate_of_append w mt) as [(L & m & R & Hin & Hmin & Hm) | (L & R)];
    fold window in L, R; rewrite R; eexists; (split; [reflexivity |]).
  - split; [apply rate_value_nonneg; lia |].
    rewrite rate_value_fast. split.
    + intros H. split; [exact L |]. exists m. split; [exact Hin | lia].
    + intros (_ & m' & Hin' & H'). specialize (Hmin m' Hin'). lia.
  - split; [apply Qle_refl |]. split.
    + intros H. discriminate H.
    + intros (L' & _). lia.
Qed.

Lemma change_speed_thermal
    (s s' : State) (d : Direction) (v : Z) (r : Reason) (i : TickInput)
    (events : list Event) :
  change_speed s d v r i = Ran s' events -> thermal s' = thermal s.
Proof.
  unfold change_speed. intros H.
  destruct (set_fan_speed v (ipmi i)).
  - destruct (get_fan_rpm (rpm_log i)); [| discriminate].
    destruct (get_fan_rpm (rpm_notify i)); [| discriminate].
    now injection H as <- <-.
  - now injection H as <- <-.
Qed.

(** The controller only reads what the temperature sampler assigns. *)
Lemma apply_speed_thermal
    (s s' : State) (target : Z) (reason : Reason) (i : TickInput)
    (events : list Event) :
  apply_speed s target reason i = Ran s' events -> thermal s' = thermal s.
Proof.
  intros H.
  destruct (apply_speed_cases s target reason i) as [[_ E] | [[_ E] | [_ E]]];
    rewrite E in H; clear E.
  - now injection H as <- <-.
  - eapply change_speed_thermal, H.
  - destruct (Qeq_bool (drop_delay_start s) 0); [now injection H as <- <- |].
    destruct (Qgeb (now i - drop_delay_start s) DROP_DELAY
              && Qgeb (now i) (cooldown_end s))%bool.
    + eapply change_speed_thermal, H.
    + now injection H as <- <-.
Qed.

(** The two outcomes of the update of a tick that returned. *)
Lemma update_temps_cases (s s1 : State) (temps : option (gmap string Z)) :
  update_temps s temps = Returned s1 ->
  s1 = s
  \/ exists rate,
      let window := deque_append (temp_window s) (max_temp s1) in
      rate_of window (max_temp s1) = Returned rate
      /\ s1 = set_temps s (max_temp s1) window
                (trend_of window (max_temp s1) (last_max_temp s)) rate.
Proof.
  intros U. destruct (truthy temps) as [d |] eqn:T.
  - assert (temps = Some d /\ d <> ∅) as [-> Hne].
    { unfold truthy in T. destruct temps as [d' |]; [| discriminate].
      destruct (bool_decide (d' = ∅)) eqn:B; [discriminate |].
      injection T as ->. split; [reflexivity |].
      now apply bool_decide_eq_false in B. }
    right. exact (update_temps_read _ _ _ Hne U).
  - rewrite (update_temps_skip _ _ T) in U. injection U as <-. now left.
Qed.

(** X9. At the end of any run [last_max_temp] equals [max_temp]; while the
    window is empty [temp_rate] is unbound, and once it holds an entry its
    newest entry is [max_temp] and [temp_rate] is bound to a rate that is not
    negative: a falling temperature cannot trigger the fast-rise branch. *)
Theorem thermal_state_is_consistent (acts : list Action) (s : State) (j : list TickRec) :
  run acts = Some (s, j) ->
  last_max_temp s = max_temp s
  /\ (temp_window s = [] -> temp_rate s = None)
  /\ (temp_window s <> [] ->
      List.last (temp_window s) 0 = max_temp s
      /\ exists r, temp_rate s = Some r /\ (0 <= r)%Q).
Proof.
  apply (run_from_invariant
           (fun s _ =>
              last_max_temp s = max_temp s
              /\ (temp_window s = [] -> temp_rate s = None)
              /\ (temp_window s <> [] ->
                  List.last (temp_window s) 0 = max_temp s
                  /\ exists r, temp_rate s = Some r /\ (0 <= r)%Q))).
  - intros s0 j0 cpu H. exact H.
  - intros s0 j0 i s1 target reason s' events HP H R.
    rewrite (main_tick_unfold _ _ _ _ _ H) in R.
    apply apply_speed_thermal in R.
    unfold thermal in R. injection R as -> -> -> _ ->.
    apply sense_and_propose_inv in H as (temps & _ & U & _).
    destruct (update_temps_cases _ _ _ U) as [-> | (rate & Hrate & E)];
      [exact HP |].
    simpl in Hrate. set (mt := max_temp s1) in *. clearbody mt.
    rewrite E. simpl. split; [reflexivity |].
    destruct (deque_append_snoc (temp_window s0) mt) as (l & Hl).
    split.
    + rewrite Hl. intros Hnil. now destruct l.
    + intros _. split.
      * rewrite Hl. apply last_last.
      * exists rate. split; [reflexivity |].
        eapply rate_of_append_nonneg, Hrate.
  - simpl. split; [reflexivity |]. split; [reflexivity |]. intros Hn. now elim Hn.
Qed.

Lemma thermal_state_is_consistent_witness :
  last_max_temp (state_after rising_reads) = max_temp (state_after rising_reads).
Proof.
  edestruct (fun j =>
               thermal_state_is_consistent rising_reads (state_after rising_reads) j)
    as [H _].
  - vm_compute. reflexivity.
  - exact H.
Defined.

(** ** The usage sampler *)



Lemma count_succ (n : nat) :
  (inject_Z (Z.of_nat (S n)) == inject_Z (Z.of_nat n) + 1)%Q.
Proof.
  rewrite Nat2Z.inj_succ. unfold Z.succ. now rewrite inject_Z_plus.
Qed.






Lemma change_speed_clears_spike
    (s s' : State) (d : Direction) (v : Z) (r : Reason) (i : TickInput)
    (events : list Event) :
  change_speed s d v r i = Ran s' events -> spike_detected s' = false.
Proof.
  unfold change_speed. intros H.
  destruct (set_fan_speed v (ipmi i)).
  - destruct (get_fan_rpm (rpm_log i)); [| discriminate].
    destruct (get_fan_rpm (rpm_notify i)); [| discriminate].
    now injection H as <- <-.
  - now injection H as <- <-.
Qed.

(** Lines 221 and 244: a tick that runs to its end leaves the flag cleared. *)
Lemma main_tick_clears_spike (s s' : State) (i : TickInput) (events : list Event) :
  main_tick s i = Ran s' events -> spike_detected s' = false.
Proof.
  intros R.
  destruct (main_tick_ran_inv _ _ _ _ R) as (s1 & target & reason & H).
  rewrite (main_tick_unfold _ _ _ _ _ H) in R.
  destruct (apply_speed_cases s1 target reason i) as [[_ E] | [[_ E] | [_ E]]];
    rewrite E in R; clear E.
  - now injection R as <- <-.
  - eapply change_speed_clears_spike, R.
  - destruct (Qeq_bool (drop_delay_start s1) 0); [now injection R as <- <- |].
    destruct (Qgeb (now i - drop_delay_start s1) DROP_DELAY
              && Qgeb (now i) (cooldown_end s1))%bool.
    + eapply change_speed_clears_spike, R.
    + now injection R as <- <-.
Qed.

(** X11. At the end of any run [spike_size] is the latest usage sample minus
    the one before, and the spike flag is set only if that rise is above 5:
    the lowest spike band covers rises above 5 and up to 10. *)
Theorem spike_flag_means_rise_above_5 (acts : list Action) (s : State) (j : list TickRec) :
  run acts = Some (s, j) ->
  spike_size s = (usage s - last_usage s)%Q
  /\ (spike_detected s = true -> (5 < spike_size s)%Q).
Proof.
  apply (run_from_invariant
           (fun s _ =>
              spike_size s = (usage s - last_usage s)%Q
              /\ (spike_detected s = true -> (5 < spike_size s)%Q))).
  - intros s0 j0 cpu _. simpl. split; [reflexivity |]. apply Qgtb_true.
  - intros s0 j0 i s1 target reason s' events [HP1 HP2] H R.
    pose proof (main_tick_sampler _ _ _ _ R) as F.
    unfold sampler in F. injection F as F1 _ F3 _ F5.
    rewrite F1, F3, F5. split; [exact HP1 |].
    rewrite (main_tick_clears_spike _ _ _ _ R). discriminate.
  - simpl. split; [reflexivity | discriminate].
Qed.

Lemma spike_flag_means_rise_above_5_witness :
  (5 < spike_size (state_after warm_then_spike))%Q.
Proof.
  edestruct (fun j =>
               spike_flag_means_rise_above_5 warm_then_spike
                 (state_after warm_then_spike) j)
    as [_ H].
  - vm_compute. reflexivity.
  - apply H. reflexivity.
Defined.

(** X12. A spike is acted on by at most one tick: after a tick that ran to
    its end, a tick that follows without a usage sample in between proposes
    from the temperature bands alone, whatever [spike_size] still holds. *)
Theorem spike_is_consumed_once
    (s s' : State) (i i2 : TickInput) (events : list Event)
    (s2 : State) (target : Z) (reason : Reason) :
  main_tick s i = Ran s' events ->
  sense_and_propose s' i2 = Returned (s2, (target, reason)) ->
  spike_detected s2 = false
  /\ propose false (spike_size s2) (max_temp s2) (temp_rate s2)
             (length (temp_window s2))
     = Returned (target, reason).
Proof.
  intros R H.
  pose proof (main_tick_clears_spike _ _ _ _ R) as C.
  destruct (sense_and_propose_frame _ _ _ _ H) as [_ F].
  apply sense_and_propose_inv in H as (temps & _ & _ & P).
  rewrite C in F. split; [exact F |].
  unfold propose_in in P. rewrite F in P. exact P.
Qed.

Lemma spike_is_consumed_once_witness :
  exists s2 reason,
    propose false (spike_size s2) (max_temp s2) (temp_rate s2)
            (length (temp_window s2))
    = Returned (25, reason).
Proof.
  edestruct (fun s' events s2 reason =>
               spike_is_consumed_once
                 (state_after warm_then_spike) s'
                 (tick_at 101 (uniform "22.000") ok_runs)
                 (tick_at 102 (uniform "22.000") ok_runs)
                 events s2 25 reason)
    as [_ H].
  - vm_compute. reflexivity.
  - vm_compute. reflexivity.
  - eexists. eexists. exact H.
Defined.

(** ** What a tick does with the actuator *)

(** X13. A tick makes at most one set-speed call; the call is for the
    proposal of the tick, which then differs from [current_speed], and its
    result is that of the three-attempt command. *)
Theorem at_most_one_call_per_tick (s : State) (i : TickInput) :
  (length (actuator_calls (events_of (main_tick s i))) <= 1)%nat
  /\ forall (v : Z) (ok : bool),
      In (v, ok) (actuator_calls (events_of (main_tick s i))) ->
      v <> current_speed s
      /\ ok = run_ipmitool (ipmi i)
      /\ exists s1 reason, sense_and_propose s i = Returned (s1, (v, reason)).
Proof.
  unfold main_tick.
  destruct (sense_and_propose s i) as [[s1 [target reason]] | e] eqn:H.
  - destruct (sense_and_propose_frame _ _ _ _ H) as [C _].
    apply controller_fields in C as (C1 & _). rewrite <- C1.
    assert (Hcall : forall d,
               (length (actuator_calls (events_of (change_speed s1 d target reason i))) <= 1)%nat
               /\ forall v ok,
                   In (v, ok) (actuator_calls (events_of (change_speed s1 d target reason i))) ->
                   v = target /\ ok = run_ipmitool (ipmi i)).
    { intros d. rewrite change_speed_calls. split; [simpl; lia |].
      intros v ok [E | []]. injection E as <- <-. auto. }
    destruct (apply_speed_cases s1 target reason i) as [[_ E] | [[G E] | [L E]]];
      rewrite E; clear E.
    + simpl. split; [lia | tauto].
    + destruct (Hcall Increased) as [Hlen Hin]. split; [exact Hlen |].
      intros v ok Hv. destruct (Hin v ok Hv) as [-> ->].
      split; [lia |]. split; [reflexivity | eauto].
    + destruct (Qeq_bool (drop_delay_start s1) 0); [simpl; split; [lia | tauto] |].
      destruct (Qgeb (now i - drop_delay_start s1) DROP_DELAY
                && Qgeb (now i) (cooldown_end s1))%bool;
        [| simpl; split; [lia | tauto]].
      destruct (Hcall Decreased) as [Hlen Hin]. split; [exact Hlen |].
      intros v ok Hv. destruct (Hin v ok Hv) as [-> ->].
      split; [lia |]. split; [reflexivity | eauto].
  - simpl. split; [lia | tauto].
Qed.

(** X14. After a tick that ran to its end, [current_speed] is the speed of
    the successful call of the tick, or unchanged if there was none; a
    notification is sent exactly when a call succeeded, and it reports the new
    [current_speed] with [Increased] for a higher and [Decreased] for a lower
    speed than before. *)
Theorem speed_and_notification_follow_the_call
    (s s' : State) (i : TickInput) (events : list Event) :
  main_tick s i = Ran s' events ->
  current_speed s' = match applied events with
                     | Some v => v
                     | None => current_speed s
                     end
  /\ existsb is_notify events = is_some (applied events)
  /\ forall d v rpm r u ua mt,
      In (Notify d v rpm r u ua mt) events ->
      v = current_speed s'
      /\ (d = Increased -> v > current_speed s)
      /\ (d = Decreased -> v < current_speed s).
Proof.
  intros R.
  destruct (main_tick_ran_inv _ _ _ _ R) as (s1 & target & reason & H).
  rewrite (main_tick_unfold _ _ _ _ _ H) in R.
  destruct (sense_and_propose_frame _ _ _ _ H) as [C _].
  apply controller_fields in C as (C1 & _). rewrite <- C1.
  assert (Hchange : forall d0,
             (d0 = Increased -> target > current_speed s1) ->
             (d0 = Decreased -> target < current_speed s1) ->
             change_speed s1 d0 target reason i = Ran s' events ->
             current_speed s' = match applied events with
                                | Some v => v
                                | None => current_speed s1
                                end
             /\ existsb is_notify events = is_some (applied events)
             /\ forall d v rpm r u ua mt,
                 In (Notify d v rpm r u ua mt) events ->
                 v = current_speed s'
                 /\ (d = Increased -> v > current_speed s1)
                 /\ (d = Decreased -> v < current_speed s1)).
  { intros d0 Hi Hd Hc. destruct (run_ipmitool (ipmi i)) eqn:Hok.
    - rewrite (change_speed_success _ _ _ _ _ Hok) in Hc.
      destruct (get_fan_rpm (rpm_log i)); [| discriminate].
      destruct (get_fan_rpm (rpm_notify i)); [| discriminate].
      injection Hc as <- <-. simpl. split; [reflexivity |]. split; [reflexivity |].
      intros d v rpm r u ua mt [E | [E | []]]; [discriminate |].
      injection E as <- <- _ _ _ _ _. auto.
    - rewrite (change_speed_failure _ _ _ _ _ Hok) in Hc.
      injection Hc as <- <-. simpl. split; [reflexivity |]. split; [reflexivity |].
      intros d v rpm r u ua mt [E | [E | []]]; discriminate. }
  assert (Hquiet : forall t : State,
             current_speed t = current_speed s1 ->
             Ran t [] = Ran s' events ->
             current_speed s' = match applied events with
                                | Some v => v
                                | None => current_speed s1
                                end
             /\ existsb is_notify events = is_some (applied events)
             /\ forall d v rpm r u ua mt,
                 In (Notify d v rpm r u ua mt) events ->
                 v = current_speed s'
                 /\ (d = Increased -> v > current_speed s1)
                 /\ (d = Decreased -> v < current_speed s1)).
  { intros t Ht E. injection E as <- <-. simpl.
    split; [exact Ht |]. split; [reflexivity | tauto]. }
  destruct (apply_speed_cases s1 target reason i) as [[_ E] | [[G E] | [L E]]];
    rewrite E in R; clear E.
  - eapply Hquiet, R. reflexivity.
  - eapply Hchange, R; [tauto | discriminate].
  - destruct (Qeq_bool (drop_delay_start s1) 0); [eapply Hquiet, R; reflexivity |].
    destruct (Qgeb (now i - drop_delay_start s1) DROP_DELAY
              && Qgeb (now i) (cooldown_end s1))%bool.
    + eapply Hchange, R; [discriminate | tauto].
    + eapply Hquiet, R. reflexivity.
Qed.

Lemma speed_and_notification_follow_the_call_witness :
  current_speed (state_after pending_drop) = 80.
Proof.
  edestruct (fun events =>
               speed_and_notification_follow_the_call
                 (state_after [Tick (tick_at 100 (uniform "45.000") ok_runs)])
                 (state_after pending_drop)
                 (tick_at 140 (uniform "22.000") ok_runs) events)
    as [H _].
  - vm_compute. reflexivity.
  - rewrite H. reflexivity.
Defined.

(** X15. The three outcomes of a proposal below [current_speed].  With the
    timer unset the tick only starts it at its clock.  With the timer set,
    the delay over and the cooldown over, the tick calls the actuator for the
    proposal.  Otherwise it produces no event and changes no controller
    field. *)
Theorem lower_proposal_outcomes
    (s s1 : State) (i : TickInput) (target : Z) (reason : Reason) :
  sense_and_propose s i = Returned (s1, (target, reason)) ->
  target < current_speed s ->
  (Qeq_bool (drop_delay_start s) 0 = true ->
   exists s',
     main_tick s i = Ran s' []
     /\ controller s' = (current_speed s, cooldown_end s, now i, last_trigger s))
  /\ (Qeq_bool (drop_delay_start s) 0 = false ->
      (DROP_DELAY <= now i - drop_delay_start s)%Q ->
      (cooldown_end s <= now i)%Q ->
      actuator_calls (events_of (main_tick s i)) = [(target, run_ipmitool (ipmi i))])
  /\ (Qeq_bool (drop_delay_start s) 0 = false ->
      (now i - drop_delay_start s < DROP_DELAY)%Q \/ (now i < cooldown_end s)%Q ->
      exists s', main_tick s i = Ran s' [] /\ controller s' = controller s).
Proof.
  intros H Hlt.
  rewrite (main_tick_unfold _ _ _ _ _ H).
  apply sense_and_propose_frame in H as [C _].
  destruct (controller_fields _ _ C) as (C1 & C2 & C3 & C4).
  rewrite <- C1 in Hlt. rewrite apply_speed_lower by exact Hlt.
  rewrite <- C1, <- C2, <- C3, <- C4. repeat split.
  - intros ->. eexists. split; reflexivity.
  - intros -> Hd Hc.
    apply Qgeb_true in Hd, Hc. rewrite Hd, Hc. simpl.
    apply change_speed_calls.
  - intros -> [Hd | Hc].
    + apply Qgeb_false in Hd. rewrite Hd. simpl.
      eexists. split; [reflexivity | exact C].
    + apply Qgeb_false in Hc. rewrite Hc, andb_false_r.
      eexists. split; [reflexivity | exact C].
Qed.

Lemma lower_proposal_outcomes_witness :
  actuator_calls
    (events_of (main_tick (state_after pending_drop)
                          (tick_at 170 (uniform "22.000") ok_runs)))
  = [(25, true)].
Proof.
  edestruct (fun s1 reason =>
               lower_proposal_outcomes
                 (state_after pending_drop) s1
                 (tick_at 170 (uniform "22.000") ok_runs) 25 reason)
    as (_ & H & _).
  - vm_compute. reflexivity.
  - reflexivity.
  - apply H; vm_compute; [reflexivity | discriminate | discriminate].
Defined.

(** ** The record of the last change *)

(** X16. At the end of any run, either no tick has changed the speed, and
    the speed is the initial 25 with [cooldown_end] 0 and the initial
    [last_trigger]; or the journal shows the most recent tick that changed it,
    [current_speed] is the proposal of that tick, [last_trigger] holds its
    clock and [cooldown_end] is that clock plus 30. *)
Theorem controller_records_last_change
    (acts : list Action) (s : State) (j : list TickRec) :
  run acts = Some (s, j) ->
  (existsb rec_applied j = false
   /\ current_speed s = 25
   /\ cooldown_end s = 0%Q
   /\ last_trigger s = mkTrigger 0 0 0 NoReason)
  \/ (exists (recent : list TickRec) (r : TickRec) (older : list TickRec),
         j = (recent ++ r :: older)%list
         /\ existsb rec_applied recent = false
         /\ rec_applied r = true
         /\ current_speed s = rec_target r
         /\ trigger_time (last_trigger s) = rec_now r
         /\ cooldown_end s = (rec_now r + HOLD_TIME)%Q).
Proof.
  apply (run_from_invariant
           (fun s j =>
              (existsb rec_applied j = false
               /\ current_speed s = 25
               /\ cooldown_end s = 0%Q
               /\ last_trigger s = mkTrigger 0 0 0 NoReason)
              \/ (exists (recent : list TickRec) (r : TickRec) (older : list TickRec),
                     j = (recent ++ r :: older)%list
                     /\ existsb rec_applied recent = false
                     /\ rec_applied r = true
                     /\ current_speed s = rec_target r
                     /\ trigger_time (last_trigger s) = rec_now r
                     /\ cooldown_end s = (rec_now r + HOLD_TIME)%Q))).
  - intros s0 j0 cpu H. exact H.
  - intros s0 j0 i s1 target reason s' events HP H R.
    pose proof (main_tick_controller _ _ _ _ _ _ _ H R) as K.
    destruct (applied events) as [v |] eqn:A.
    + right.
      assert (A' : applied (events_of (main_tick s0 i)) = Some v)
        by (rewrite R; exact A).
      destruct (applied_inv _ _ _ _ _ _ H A') as (-> & _).
      unfold controller in K. injection K as K1 K2 _ K4.
      exists [], (mkTickRec (now i) target (current_speed s1) true), j0.
      simpl. rewrite K1, K2, K4. simpl. repeat split.
    + destruct K as (K1 & K2 & K3 & _). rewrite K1, K2, K3.
      destruct HP as [(Q & HP) | (recent & r & older & -> & Q & HP)].
      * left. simpl. rewrite Q. split; [reflexivity | exact HP].
      * right.
        exists (mkTickRec (now i) target (current_speed s1) false :: recent), r, older.
        simpl. rewrite Q. split; [reflexivity |]. split; [reflexivity | exact HP].
  - left. simpl. repeat split.
Qed.

Lemma controller_records_last_change_witness :
  cooldown_end (state_after pending_drop) = (100 + HOLD_TIME)%Q.
Proof.
  edestruct (fun j =>
               controller_records_last_change pending_drop (state_after pending_drop) j)
    as [(_ & H & _) | (recent & r & older & _ & _ & _ & _ & _ & _)].
  - vm_compute. reflexivity.
  - vm_compute in H. discriminate H.
  - vm_compute. reflexivity.
Defined.

(** ** When a tick runs to its end *)




(** X18. When the set-speed call of an increase succeeds and the RPM text
    read for the log line is empty or blank, the tick raises [ValueError]
    after the call: the fans have been set and the loop ends without
    [current_speed] recorded. *)
Theorem blank_rpm_text_ends_the_loop_after_the_call
    (s s1 : State) (i : TickInput) (target : Z) (reason : Reason) (text : string) :
  sense_and_propose s i = Returned (s1, (target, reason)) ->
  target > current_speed s ->
  run_ipmitool (ipmi i) = true ->
  rpm_log i = RpmOutput text ->
  PyStr.strip text = "" ->
  main_tick s i = Crashed ValueError [SetFanSpeed target (hex_speed target) true].
Proof.
  intros H G Hok Hrpm Hblank.
  rewrite (main_tick_unfold _ _ _ _ _ H).
  apply sense_and_propose_frame in H as [C _].
  apply controller_fields in C as (C1 & _).
  rewrite apply_speed_higher by lia.
  rewrite (change_speed_success _ _ _ _ _ Hok), Hrpm.
  unfold get_fan_rpm. rewrite Hblank. reflexivity.
Qed.

Lemma blank_rpm_text_ends_the_loop_after_the_call_witness :
  main_tick initial_state
    (mkTickInput (uniform "35.000") 100 ok_runs (RpmOutput LF) (RpmOutput LF))
  = Crashed ValueError [SetFanSpeed 40 (hex_speed 40) true].
Proof.
  eapply (blank_rpm_text_ends_the_loop_after_the_call initial_state _ _ 40 _ LF).
  - vm_compute. reflexivity.
  - reflexivity.
  - reflexivity.
  - reflexivity.
  - reflexivity.
Defined.

(** ** The sensor parser *)

Lemma well_keyed_insert (temps : gmap string Z) (k : string) (v : Z) :
  In k monitored_keys ->
  (k = "cpu2" -> temps !! "cpu1" <> None) ->
  well_keyed temps ->
  well_keyed (<[k := v]> temps).
Proof.
  intros Hk Hcpu [Hkeys Hord]. split.
  - intros k' v' H. apply lookup_insert_Some in H as [[<- _] | [_ H]].
    + exact Hk.
    + eapply Hkeys, H.
  - intros H1.
    apply lookup_insert_None in H1 as [H1 Hne].
    apply lookup_insert_None. split.
    + now apply Hord.
    + intros ->. now apply Hcpu.
Qed.

Lemma parse_line_well_keyed (temps temps' : gmap string Z) (line : string) :
  well_keyed temps ->
  parse_line temps line = Returned temps' ->
  well_keyed temps'.
Proof.
  intros HW. unfold parse_line.
  set (reading := bind (second_field _) _). clearbody reading.
  destruct (PyStr.contains "Inlet Temp" _).
  { destruct reading; simpl; [| discriminate]. intros H. injection H as <-.
    apply well_keyed_insert; [simpl; tauto | discriminate | exact HW]. }
  destruct (PyStr.contains "Exhaust Temp" _).
  { destruct reading; simpl; [| discriminate]. intros H. injection H as <-.
    apply well_keyed_insert; [simpl; tauto | discriminate | exact HW]. }
  destruct (String.eqb _ "Temp"); simpl.
  - destruct (bool_decide (temps !! "cpu1" = None)) eqn:B.
    + destruct reading; simpl; [| discriminate]. intros H. injection H as <-.
      apply well_keyed_insert; [simpl; tauto | discriminate | exact HW].
    + apply bool_decide_eq_false in B.
      destruct reading; simpl; [| discriminate]. intros H. injection H as <-.
      apply well_keyed_insert; [simpl; tauto | intros _; exact B | exact HW].
  - intros H. injection H as <-. exact HW.
Qed.

Lemma parse_lines_well_keyed (lines : list string) (temps temps' : gmap string Z) :
  well_keyed temps ->
  parse_lines temps lines = Returned temps' ->
  well_keyed temps'.
Proof.
  revert temps. induction lines as [| line rest IH]; intros temps HW H; simpl in H.
  - injection H as <-. exact HW.
  - destruct (parse_line temps line) as [t1 | e] eqn:E; [| discriminate].
    simpl in H. eapply IH; [| exact H]. eapply parse_line_well_keyed; eauto.
Qed.

(** X19. Whatever text the sensor command prints, a dict returned by the read
    has no key other than [inlet], [exhaust], [cpu1] and [cpu2], and has
    [cpu2] only together with [cpu1]: the first row labelled [Temp] is CPU 1,
    and only later ones are CPU 2. *)
Theorem sensor_dict_keys (run : SensorRun) (d : gmap string Z) :
  get_sensor_data run = Returned (Some d) ->
  (forall (k : string) (v : Z), d !! k = Some v -> In k monitored_keys)
  /\ (forall v : Z, d !! "cpu2" = Some v -> exists v1 : Z, d !! "cpu1" = Some v1).
Proof.
  destruct run as [output |]; simpl; [| discriminate].
  destruct (parse_lines ∅ (PyStr.splitlines output)) as [temps | e] eqn:E;
    [| discriminate].
  simpl. intros H. injection H as <-.
  assert (HW : well_keyed temps).
  { eapply parse_lines_well_keyed; [| exact E]. split.
    - intros k v H. rewrite lookup_empty in H. discriminate.
    - intros _. apply lookup_empty. }
  destruct HW as [Hkeys Hord]. split; [exact Hkeys |].
  intros v H2. destruct (temps !! "cpu1") as [v1 |] eqn:H1; [eauto |].
  rewrite (Hord eq_refl) in H2. discriminate.
Qed.

Lemma sensor_dict_keys_witness :
  exists v1 : Z, all_at 41 !! "cpu1" = Some v1.
Proof.
  destruct (sensor_dict_keys (uniform "41.000") (all_at 41)) as [_ H].
  - vm_compute. reflexivity.
  - apply (H 41). vm_compute. reflexivity.
Defined.

Lemma parse_line_unmonitored (temps : gmap string Z) (line : string) :
  is_monitored (label line) = false ->
  parse_line temps line = Returned temps.
Proof.
  unfold is_monitored, label, parse_line. intros H.
  apply orb_false_iff in H as [H H3]. apply orb_false_iff in H as [H1 H2].
  now rewrite H1, H2, H3.
Qed.

(** X20. A sensor output none of whose lines is labelled as a monitored row
    (the empty output among them) is not an error: the read returns the empty
    dict, which the tick treats as a failed read, leaving the state of the
    temperature sampler as it is. *)
Theorem unmonitored_output_is_a_skipped_read (output : string) (s : State) :
  (forall line, In line (PyStr.splitlines output) -> is_monitored (label line) = false) ->
  get_sensor_data (SensorOutput output) = Returned (Some ∅)
  /\ update_temps s (Some ∅) = Returned s.
Proof.
  intros H. split; [| reflexivity]. simpl.
  assert (E : parse_lines ∅ (PyStr.splitlines output) = Returned ∅).
  { induction (PyStr.splitlines output) as [| line rest IH]; [reflexivity |].
    simpl. rewrite parse_line_unmonitored by (apply H; now left). simpl.
    apply IH. intros l Hl. apply H. now right. }
  now rewrite E.
Qed.

Lemma unmonitored_output_is_a_skipped_read_witness :
  get_sensor_data
    (SensorOutput ("Fan1 RPM         | 7200.000   | RPM        | ok" +:+ LF))
  = Returned (Some ∅).
Proof.
  apply (unmonitored_output_is_a_skipped_read _ initial_state).
  intros line Hl. vm_compute in Hl. destruct Hl as [<- | []]. reflexivity.
Defined.

(** ** Readings are truncated *)

Lemma digit_cases (d : Z) :
  is_digit d ->
  d = 0 \/ d = 1 \/ d = 2 \/ d = 3 \/ d = 4 \/ d = 5 \/ d = 6 \/ d = 7 \/ d = 8 \/ d = 9.
Proof. unfold is_digit. lia. Qed.

Ltac each_digit H :=
  apply digit_cases in H;
  repeat match type of H with
         | _ \/ _ => destruct H as [H | H]
         end;
  subst.

Lemma digit_of_char (d : Z) : is_digit d -> PyNum.digit_of (digit_char d) = Some d.
Proof. intros H. each_digit H; reflexivity. Qed.

Lemma digits_tail_digit (c : ascii) (r : string) (d : Z) :
  PyNum.digit_of c = Some d ->
  PyNum.digits_tail (String c r)
  = let '(ds, r') := PyNum.digits_tail r in (d :: ds, r').
Proof. intros H. simpl. now rewrite H. Qed.

Lemma digits_text_cons (d : Z) (ds : list Z) (rest : string) :
  digits_text (d :: ds) +:+ rest = String (digit_char d) (digits_text ds +:+ rest).
Proof. reflexivity. Qed.

Lemma digits_tail_text (ds : list Z) (rest : string) :
  Forall is_digit ds ->
  ends_number rest ->
  PyNum.digits_tail (digits_text ds +:+ rest) = (ds, rest).
Proof.
  intros Hds Hrest. induction Hds as [| d ds Hd _ IH].
  - change (digits_text [] +:+ rest) with rest.
    destruct rest as [| c r]; [reflexivity |].
    destruct Hrest as [H1 H2]. simpl. now rewrite H1, H2.
  - rewrite digits_text_cons, (digits_tail_digit _ _ d (digit_of_char d Hd)).
    now rewrite IH.
Qed.

Lemma digitpart_text (d : Z) (ds : list Z) (rest : string) :
  Forall is_digit (d :: ds) ->
  ends_number rest ->
  PyNum.digitpart (digits_text (d :: ds) +:+ rest) = Some (d :: ds, rest).
Proof.
  intros Hds Hrest. inversion Hds as [| d' ds' Hd Hds']; subst.
  rewrite digits_text_cons. unfold PyNum.digitpart.
  rewrite (digit_of_char d Hd).
  now rewrite (digits_tail_text ds rest Hds' Hrest).
Qed.

Lemma text_app_empty (s : string) : s +:+ "" = s.
Proof.
  induction s as [| c s IH]; [reflexivity |].
  change (String c (s +:+ "") = String c s). now rewrite IH.
Qed.







(** ** The table of levels *)

(** X22. The level byte sent for a speed of the table is that speed written
    in hexadecimal, and any other speed is sent as 0x19, the byte of 25. *)
Theorem level_byte_is_the_speed (speed : Z) :
  hex_value (hex_speed speed)
  = Some (if existsb (Z.eqb speed) levels then speed else 25).
Proof.
  unfold hex_speed, levels. simpl existsb.
  destruct (speed =? 25) eqn:E1; [apply Z.eqb_eq in E1; subst; reflexivity |].
  destruct (speed =? 40) eqn:E2; [apply Z.eqb_eq in E2; subst; reflexivity |].
  destruct (speed =? 60) eqn:E3; [apply Z.eqb_eq in E3; subst; reflexivity |].
  destruct (speed =? 80) eqn:E4; [apply Z.eqb_eq in E4; subst; reflexivity |].
  destruct (speed =? 100) eqn:E5; [apply Z.eqb_eq in E5; subst; reflexivity |].
  reflexivity.
Qed.

(** ** Attempts and sleeps of the actuator command *)

Lemma run_ipmitool_trace_result (runs : nat -> Attempt) (delay : Q) (left attempt : nat) :
  snd (run_ipmitool_trace runs delay attempt left) = run_ipmitool_from runs attempt left.
Proof.
  revert attempt. induction left as [| left IH]; intros attempt; simpl.
  - reflexivity.
  - destruct (attempt_ok (runs attempt)); [reflexivity |].
    specialize (IH (S attempt)).
    destruct (run_ipmitool_trace runs delay (S attempt) left). exact IH.
Qed.

Lemma count_step (n : nat) (delay : Q) :
  (delay + delay * inject_Z (Z.of_nat n) == delay * inject_Z (Z.of_nat (S n)))%Q.
Proof. rewrite count_succ. ring. Qed.

(** X23. The actuator command is run at most [retries] times and not again
    after a run that exits with status 0; it sleeps [delay] after every
    failed run, the last one included, so a call that fails has run the
    command [retries] times and slept [retries * delay] (1.5 seconds for the
    defaults), and a call never sleeps longer than that. *)
Theorem run_ipmitool_attempts_and_sleep
    (runs : nat -> Attempt) (delay : Q) (retries first : nat) :
  (0 <= delay)%Q ->
  let '(events, result) := run_ipmitool_trace runs delay first retries in
  result = run_ipmitool_from runs first retries
  /\ (runs_made events <= retries)%nat
  /\ (slept events <= delay * inject_Z (Z.of_nat retries))%Q
  /\ (result = false ->
      runs_made events = retries
      /\ (slept events == delay * inject_Z (Z.of_nat retries))%Q
      /\ In IpmiError events)
  /\ (result = true ->
      (slept events == delay * inject_Z (Z.of_nat (runs_made events - 1)))%Q
      /\ exists k, List.last events IpmiError = IpmiRun k (Exit 0)).
Proof.
  intros Hd. revert first. induction retries as [| n IH]; intros first.
  - simpl. change (inject_Z (Z.of_nat 0)) with 0%Q.
    repeat split; try lia; try discriminate; try lra. now left.
  - simpl. destruct (attempt_ok (runs first)) eqn:Hok.
    + split; [reflexivity |]. split; [simpl; lia |]. split.
      { change (slept [IpmiRun first (runs first)]) with 0%Q.
        apply Qmult_le_0_compat; [exact Hd |].
        unfold Qle, inject_Z. simpl. lia. }
      split; [discriminate |]. intros _. split.
      * change (slept [IpmiRun first (runs first)]) with 0%Q.
        change (inject_Z (Z.of_nat (runs_made [IpmiRun first (runs first)] - 1)))
          with 0%Q.
        lra.
      * destruct (runs first) as [rc |]; [| discriminate].
        apply Z.eqb_eq in Hok. subst rc. exists first. reflexivity.
    + specialize (IH (S first)).
      destruct (run_ipmitool_trace runs delay (S first) n) as [events result].
      destruct IH as (R & Hruns & Hsleep & Hfail & Hsucc).
      change (runs_made (IpmiRun first (runs first) :: IpmiWarning (S first)
                           :: IpmiSleep delay :: events))
        with (S (runs_made events)).
      change (slept (IpmiRun first (runs first) :: IpmiWarning (S first)
                       :: IpmiSleep delay :: events))
        with (delay + slept events)%Q.
      split; [exact R |]. split; [lia |]. split.
      { rewrite <- count_step. lra. }
      split.
      * intros F. destruct (Hfail F) as (H1 & H2 & H3).
        split; [lia |]. split.
        -- rewrite <- count_step, H2. reflexivity.
        -- right. right. right. exact H3.
      * intros T. destruct (Hsucc T) as (H1 & k & H2). split.
        -- assert (Hpos : (1 <= runs_made events)%nat).
           { destruct events as [| e events]; [discriminate H2 |].
             clear - H2. revert e H2.
             induction events as [| e' events IHe]; intros e H2.
             - simpl in H2. subst e. unfold runs_made. simpl. lia.
             - specialize (IHe e' H2). unfold runs_made in *. simpl in *.
               destruct e; simpl; lia. }
           replace (S (runs_made events) - 1)%nat with (S (runs_made events - 1))
             by lia.
           rewrite <- count_step, H1. reflexivity.
        -- exists k. destruct events as [| e events]; [discriminate H2 |].
           exact H2.
Qed.

Lemma run_ipmitool_attempts_and_sleep_witness :
  (slept (fst (run_ipmitool_trace failing_runs 0.5 0 3)) == 1.5)%Q.
Proof.
  pose proof (run_ipmitool_attempts_and_sleep failing_runs 0.5 3 0) as H.
  destruct (run_ipmitool_trace failing_runs 0.5 0 3) as [events result] eqn:E.
  destruct H as (R & _ & _ & F & _).
  - unfold Qle. simpl. lia.
  - destruct F as (_ & F & _).
    + rewrite R. reflexivity.
    + simpl. rewrite F. reflexivity.
Defined.
(** ** Startup *)

(** X24. Startup has three endings.  With a PID file present it exits with
    status 1 and sends no command.  Otherwise, if enabling manual control or
    setting the initial speed fails, the last command it sends is the one
    restoring automatic control, the PID file it wrote is removed and the
    exit status is 0; the set-speed command is not sent when enabling failed.
    Otherwise the loop is entered with the PID file written and exactly the
    two commands sent: enable manual control, then speed byte 0x19. *)
Theorem startup_endings (h : Host) (pid : string)
    (enable_runs set_runs restore_runs : nat -> Attempt) :
  match startup h pid enable_runs set_runs restore_runs with
  | SystemExit code h' =>
      (code = 1 /\ h' = h /\ pid_file h <> None)
      \/ (code = 0
          /\ pid_file h = None
          /\ pid_file h' = None
          /\ exists restored,
              (run_ipmitool enable_runs = false
               /\ sent h' = (sent h ++ [(ENABLE_MANUAL, false);
                                        (RESTORE_AUTO, restored)])%list)
              \/ (run_ipmitool enable_runs = true
                  /\ run_ipmitool set_runs = false
                  /\ sent h' = (sent h ++ [(ENABLE_MANUAL, true);
                                           ("raw 0x30 0x30 0x02 0xff 0x19", false);
                                           (RESTORE_AUTO, restored)])%list))
  | FileNotFoundError _ => False
  | LoopEntered h' =>
      pid_file h = None
      /\ pid_file h' = Some pid
      /\ sent h' = (sent h ++ [(ENABLE_MANUAL, true);
                               ("raw 0x30 0x30 0x02 0xff 0x19", true)])%list
  end.
Proof.
  unfold startup. destruct (pid_file h) as [content |] eqn:P.
  - left. repeat split. discriminate.
  - unfold set_fan_speed.
    destruct (run_ipmitool enable_runs) eqn:E1; simpl.
    + destruct (run_ipmitool set_runs) eqn:E2; simpl.
      * repeat split. now rewrite <- app_assoc.
      * right. repeat split. exists (run_ipmitool restore_runs). right.
        repeat split. now rewrite <- !app_assoc.
    + right. repeat split. exists (run_ipmitool restore_runs). left.
      repeat split. now rewrite <- app_assoc.
Qed.

(** ** The fan RPM read *)

Lemma digit_char_not_space (d : Z) : is_digit d -> PyStr.is_space (digit_char d) = false.
Proof. intros H. each_digit H; reflexivity. Qed.

Lemma rstrip_digits (ds : list Z) :
  Forall is_digit ds ->
  PyStr.rstrip (digits_text ds +:+ LF) = digits_text ds.
Proof.
  intros H. induction H as [| d ds Hd Hds IH]; [reflexivity |].
  rewrite digits_text_cons.
  change (PyStr.rstrip (String (digit_char d) (digits_text ds +:+ LF)))
    with (match PyStr.rstrip (digits_text ds +:+ LF) with
          | EmptyString =>
              if PyStr.is_space (digit_char d) then EmptyString
              else String (digit_char d) EmptyString
          | r => String (digit_char d) r
          end).
  rewrite IH, (digit_char_not_space d Hd).
  destruct ds; reflexivity.
Qed.

(** X25. When the RPM pipeline prints a number in decimal digits followed by
    a line feed, [get_fan_rpm] returns that number; when the pipeline exits
    with an error it returns 0. *)
Theorem get_fan_rpm_reads_the_number (d : Z) (ds : list Z) :
  Forall is_digit (d :: ds) ->
  get_fan_rpm (RpmOutput (digits_text (d :: ds) +:+ LF))
  = Returned (PyNum.value_of (d :: ds))
  /\ get_fan_rpm RpmCalledProcessError = Returned 0.
Proof.
  intros H. split; [| reflexivity].
  unfold get_fan_rpm, PyStr.strip.
  inversion H as [| d' ds' Hd Hds]; subst.
  assert (L : PyStr.lstrip (digits_text (d :: ds) +:+ LF)
              = digits_text (d :: ds) +:+ LF).
  { rewrite digits_text_cons. unfold PyStr.lstrip.
    now rewrite (digit_char_not_space d Hd). }
  rewrite L, (rstrip_digits (d :: ds) H).
  unfold PyNum.py_int.
  assert (S : PyNum.sign (digits_text (d :: ds)) = (1, digits_text (d :: ds))).
  { clear - Hd. each_digit Hd; reflexivity. }
  rewrite S.
  pose proof (digitpart_text d ds "" H I) as E. rewrite text_app_empty in E.
  rewrite E. f_equal. lia.
Qed.

Lemma get_fan_rpm_reads_the_number_witness :
  get_fan_rpm (RpmOutput ("7200" +:+ LF)) = Returned 7200.
Proof.
  destruct (get_fan_rpm_reads_the_number 7 [2; 0; 0]) as [H _].
  - repeat constructor; unfold is_digit; lia.
  - exact H.
Defined.
